(** * Travel itinerary pipeline: console front end (travel_planner.py) and
      web front end (app.py)

    A shallow embedding of the two Python front ends and of the part of the
    Python runtime they rely on (str.split, str.strip, int(), dict.get,
    slicing, f-string rendering), followed by the properties of the pipeline.

    Text is modelled by [string]: a character is a code point below 256.
    On that range the runtime functions below follow CPython exactly
    (whitespace is 9-13, 28-32, 133 and 160; the only decimal digits are
    '0'..'9'). *)

From Stdlib Require Import ZArith Ascii String DecimalString.
From stdpp Require Import gmap strings list.

Local Open Scope Z_scope.

(** ** The Python runtime *)

Module Py.

(** Exceptions are told apart only as far as the [except (IndexError,
    ValueError)] clause of the two front ends does: [OtherError] stands for
    every exception that is neither (TypeError, AttributeError, KeyError,
    transport failures of the HTTP client, ...). *)
Inductive exn := IndexError | ValueError | OtherError.

Inductive result (A : Type) :=
| Ok (a : A)
| Raise (e : exn).
Global Arguments Ok {A} a.
Global Arguments Raise {A} e.

Definition rbind {A B} (r : result A) (f : A -> result B) : result B :=
  match r with
  | Ok a => f a
  | Raise e => Raise e
  end.

Definition nl : string := String (ascii_of_nat 10) EmptyString.
Definition comma : ascii := ascii_of_nat 44.
Definition dquote : ascii := ascii_of_nat 34.
Definition squote : ascii := ascii_of_nat 39.
Definition backslash : ascii := ascii_of_nat 92.
Definition underscore : ascii := ascii_of_nat 95.

(** [str.isspace] on one character. *)
Definition isspace (c : ascii) : bool :=
  match N_of_ascii c with
  | 9 | 10 | 11 | 12 | 13 | 28 | 29 | 30 | 31 | 32 | 133 | 160 => true
  | _ => false
  end%N.

(** Value of a decimal digit, as [int()] reads it. *)
Definition digit_value (c : ascii) : option Z :=
  let n := N_of_ascii c in
  if ((48 <=? n) && (n <=? 57))%N then Some (Z.of_N n - 48) else None.

Definition is_empty (s : string) : bool :=
  match s with
  | EmptyString => true
  | String _ _ => false
  end.

Fixpoint lstrip (s : string) : string :=
  match s with
  | EmptyString => EmptyString
  | String c r => if isspace c then lstrip r else s
  end.

Fixpoint rstrip (s : string) : string :=
  match s with
  | EmptyString => EmptyString
  | String c r =>
      let r' := rstrip r in
      if isspace c && is_empty r' then EmptyString else String c r'
  end.

(** [s.strip()] *)
Definition strip (s : string) : string := rstrip (lstrip s).

(** [s.split(sep)] for a one-character separator: never the empty list. *)
Fixpoint split (sep : ascii) (s : string) : list string :=
  match s with
  | EmptyString => [EmptyString]
  | String c r =>
      if Ascii.eqb c sep then EmptyString :: split sep r
      else match split sep r with
           | t :: ts => String c t :: ts
           | [] => [String c EmptyString]
           end
  end.

(** [s.split()]: the maximal runs of characters that are not whitespace. *)
Fixpoint split_ws (s : string) : list string :=
  match s with
  | EmptyString => []
  | String c r =>
      if isspace c then split_ws r
      else match r with
           | EmptyString => [String c EmptyString]
           | String d _ =>
               if isspace d then String c EmptyString :: split_ws r
               else match split_ws r with
                    | t :: ts => String c t :: ts
                    | [] => [String c EmptyString]
                    end
           end
  end.

(** [l[i]] for a non-negative index. *)
Definition index {A} (l : list A) (i : nat) : result A :=
  match l !! i with
  | Some a => Ok a
  | None => Raise IndexError
  end.

(** The digits of an [int()] literal: single underscores are allowed between
    digits. Yields the value and the number of digit characters. *)
Fixpoint scan_digits (prev_us : bool) (acc : Z) (cnt : nat) (s : string)
  : option (Z * nat) :=
  match s with
  | EmptyString => if prev_us then None else Some (acc, cnt)
  | String c r =>
      if Ascii.eqb c underscore then
        if prev_us then None else scan_digits true acc cnt r
      else match digit_value c with
           | Some d => scan_digits false (10 * acc + d) (S cnt) r
           | None => None
           end
  end.

Definition parse_digits (s : string) : option (Z * nat) :=
  match s with
  | EmptyString => None
  | String c _ => if Ascii.eqb c underscore then None else scan_digits false 0 0 s
  end.

(** CPython's default limit on the number of digits of a decimal string
    converted to [int] (sys.get_int_max_str_digits()). *)
Definition int_max_str_digits : nat := 4300.

(** [int(s)] for a string [s], base 10. *)
Definition int (s : string) : result Z :=
  let s := strip s in
  let '(neg, body) :=
    match s with
    | String c r =>
        if Ascii.eqb c "+" then (false, r)
        else if Ascii.eqb c "-" then (true, r)
        else (false, s)
    | EmptyString => (false, s)
    end in
  match parse_digits body with
  | Some (v, cnt) =>
      if (int_max_str_digits <? cnt)%nat then Raise ValueError
      else Ok (if neg then - v else v)
  | None => Raise ValueError
  end.

(** [str(z)] for an integer. *)
Definition str_of_int (z : Z) : string := NilZero.string_of_int (Z.to_int z).

(** ** Values *)

(** The values [json.loads] builds, which is what a search response holds.
    A float is carried with its [repr]; a dict lists its items in insertion
    order, and a lookup returns the first item with that key (the keys of a
    Python dict are distinct). *)
#[warnings="-register-all"]
Inductive pyval :=
| PNone
| PBool (b : bool)
| PInt (z : Z)
| PFloat (float_repr : string)
| PStr (s : string)
| PList (l : list pyval)
| PDict (d : list (string * pyval)).

Fixpoint contains_char (c : ascii) (s : string) : bool :=
  match s with
  | EmptyString => false
  | String d r => Ascii.eqb c d || contains_char c r
  end.

(** [sub in s] for two strings. *)
Fixpoint has_substring (sub s : string) : bool :=
  String.prefix sub s ||
  match s with
  | EmptyString => false
  | String _ r => has_substring sub r
  end.

Definition hex_digit (n : N) : ascii :=
  ascii_of_N (if (n <? 10)%N then 48 + n else 87 + n).

Definition isprintable (c : ascii) : bool :=
  let n := N_of_ascii c in
  ((32 <=? n) && (n <? 127) || (161 <=? n) && negb (n =? 173))%N.

Definition repr_char (quote c : ascii) : string :=
  let n := N_of_ascii c in
  if Ascii.eqb c quote || Ascii.eqb c backslash then String backslash (String c EmptyString)
  else if (n =? 9)%N then "\t"
  else if (n =? 10)%N then "\n"
  else if (n =? 13)%N then "\r"
  else if isprintable c then String c EmptyString
  else "\x" +:+ String (hex_digit (n / 16)) (String (hex_digit (n mod 16)) EmptyString).

Fixpoint repr_chars (quote : ascii) (s : string) : string :=
  match s with
  | EmptyString => EmptyString
  | String c r => repr_char quote c +:+ repr_chars quote r
  end.

(** [repr(s)] for a string. *)
Definition repr_str (s : string) : string :=
  let quote :=
    if contains_char squote s && negb (contains_char dquote s) then dquote else squote in
  String quote (repr_chars quote s +:+ String quote EmptyString).

(** [sep.join(l)] *)
Definition join (sep : string) (l : list string) : string := String.concat sep l.

(** [repr(v)] *)
Fixpoint repr (v : pyval) : string :=
  match v with
  | PNone => "None"
  | PBool b => if b then "True" else "False"
  | PInt z => str_of_int z
  | PFloat r => r
  | PStr s => repr_str s
  | PList l => "[" +:+ join ", " (map repr l) +:+ "]"
  | PDict d =>
      "{" +:+ join ", " (map (fun kv => let '(k, x) := kv in repr_str k +:+ ": " +:+ repr x) d) +:+ "}"
  end.

(** [str(v)], which is also what [{v}] inside an f-string renders. *)
Definition str (v : pyval) : string :=
  match v with
  | PStr s => s
  | _ => repr v
  end.

Fixpoint lookup_item (key : string) (d : list (string * pyval)) : option pyval :=
  match d with
  | [] => None
  | (k, x) :: d' => if String.eqb k key then Some x else lookup_item key d'
  end.

(** [key in v] *)
Definition contains (key : string) (v : pyval) : result bool :=
  match v with
  | PDict d => Ok (bool_decide (is_Some (lookup_item key d)))
  | PList l => Ok (existsb (fun x => match x with PStr s => String.eqb s key | _ => false end) l)
  | PStr s => Ok (has_substring key s)
  | _ => Raise OtherError
  end.

(** [v[key]] for a string key *)
Definition getitem (v : pyval) (key : string) : result pyval :=
  match v with
  | PDict d => match lookup_item key d with Some x => Ok x | None => Raise OtherError end
  | _ => Raise OtherError
  end.

(** [v.get(key, default)]: only a dict has the method. *)
Definition get (v : pyval) (key : string) (dflt : pyval) : result pyval :=
  match v with
  | PDict d => Ok (default dflt (lookup_item key d))
  | _ => Raise OtherError
  end.

Fixpoint string_take (n : nat) (s : string) : string :=
  match n, s with
  | S n', String c r => String c (string_take n' r)
  | _, _ => EmptyString
  end.

(** [v[:n]] *)
Definition slice_to (n : nat) (v : pyval) : result pyval :=
  match v with
  | PList l => Ok (PList (take n l))
  | PStr s => Ok (PStr (string_take n s))
  | _ => Raise OtherError
  end.

Fixpoint chars (s : string) : list pyval :=
  match s with
  | EmptyString => []
  | String c r => PStr (String c EmptyString) :: chars r
  end.

(** The items a [for] loop over [v] visits. *)
Definition iter (v : pyval) : result (list pyval) :=
  match v with
  | PList l => Ok l
  | PStr s => Ok (chars s)
  | PDict d => Ok (map (fun kv => PStr kv.1) d)
  | _ => Raise OtherError
  end.

(** The body of a loop run over the items in order; the first exception ends
    the loop. *)
Fixpoint for_each {A B} (f : A -> result B) (l : list A) : result (list B) :=
  match l with
  | [] => Ok []
  | a :: l' => rbind (f a) (fun b => rbind (for_each f l') (fun bs => Ok (b :: bs)))
  end.

(** [s * n] *)
Fixpoint str_mul (s : string) (n : nat) : string :=
  match n with
  | O => EmptyString
  | S n' => s +:+ str_mul s n'
  end.

(** ** Template formatting *)

(** [template.format(name=value, ...)] with replacement fields [{name}] and the
    doubled braces of str.format; conversions and format specifications do not
    occur in the templates of this program and are not modelled. A missing
    name is a KeyError, a stray brace a ValueError. *)
Fixpoint format_fields (kwargs : list (string * pyval)) (field : option string)
    (s : string) : result string :=
  match s with
  | EmptyString =>
      match field with
      | None => Ok EmptyString
      | Some _ => Raise ValueError
      end
  | String c r =>
      match field with
      | Some name =>
          if Ascii.eqb c "}" then
            match lookup_item name kwargs with
            | Some x => rbind (format_fields kwargs None r) (fun t => Ok (str x +:+ t))
            | None => Raise OtherError
            end
          else format_fields kwargs (Some (name +:+ String c EmptyString)) r
      | None =>
          if Ascii.eqb c "{" then
            match r with
            | String d r' =>
                if Ascii.eqb d "{" then
                  rbind (format_fields kwargs None r') (fun t => Ok (String "{" t))
                else format_fields kwargs (Some EmptyString) r
            | EmptyString => Raise ValueError
            end
          else if Ascii.eqb c "}" then
            match r with
            | String d r' =>
                if Ascii.eqb d "}" then
                  rbind (format_fields kwargs None r') (fun t => Ok (String "}" t))
                else Raise ValueError
            | EmptyString => Raise ValueError
            end
          else rbind (format_fields kwargs None r) (fun t => Ok (String c t))
      end
  end.

Definition format (template : string) (kwargs : list (string * pyval)) : result string :=
  format_fields kwargs None template.

End Py.

Import Py.

Global Instance result_ret : MRet result := fun A a => Ok a.
Global Instance result_bind : MBind result := fun A B f r => rbind r f.

(** ** Effects: console, page, network *)

(** What [requests.post] hands back: the status line, the raw body and what
    [resp.json()] makes of the body (a value, or the decoding error, which is
    a ValueError). *)
Record Response := {
  status_code : Z;
  text : string;
  json : result pyval
}.

(** The client object [ChatGroq(api_key=..., model=...)]. *)
Record ChatGroq := {
  api_key : string;
  model : string
}.

(** What a run does that can be observed from outside. *)
Inductive event :=
| Print (s : string)
| Input (prompt : string)
| StSpinner (s : string)
| StError (s : string)
| StWarning (s : string)
| StHeader (s : string)
| StMarkdown (s : string)
| HttpPost (url : string) (headers : list (string * string)) (body : pyval)
| LlmInvoke (llm : ChatGroq) (prompt : string).

(** The surroundings of one request: the two keys read from the environment
    at start-up, the search provider and the hosted model. *)
Record world := {
  GROQ_API_KEY : string;
  SERPER_API_KEY : string;
  requests_post : string -> list (string * string) -> pyval -> result Response;
  llm_invoke : ChatGroq -> string -> result string
}.

(** How a computation ends: with a value, with an exception on its way up,
    or by [st.stop()], which no [except] clause of the program catches. *)
Inductive outcome (A : Type) :=
| Done (a : A)
| Failed (e : exn)
| Stopped.
Global Arguments Done {A} a.
Global Arguments Failed {A} e.
Global Arguments Stopped {A}.

(** A computation over a store [S]: the events in order, the final store and
    the outcome. *)
Definition M (S A : Type) : Type := S -> list event * S * outcome A.

Definition ret {S A} (a : A) : M S A := fun s => ([], s, Done a).

Definition bind {S A B} (m : M S A) (f : A -> M S B) : M S B :=
  fun s =>
    match m s with
    | (t1, s1, Done a) => let '(t2, s2, o) := f a s1 in (t1 ++ t2, s2, o)
    | (t1, s1, Failed e) => (t1, s1, Failed e)
    | (t1, s1, Stopped) => (t1, s1, Stopped)
    end.

Global Instance M_ret {S} : MRet (M S) := fun A a => ret a.
Global Instance M_bind {S} : MBind (M S) := fun A B f m => bind m f.

Definition emit {S} (e : event) : M S unit := fun s => ([e], s, Done tt).

Definition lift {S A} (r : result A) : M S A :=
  fun s => ([], s, match r with Ok a => Done a | Raise e => Failed e end).

(** [try: body except (IndexError, ValueError): handler] *)
Definition caught (e : exn) : bool :=
  match e with
  | IndexError | ValueError => true
  | OtherError => false
  end.

Definition try_except {S A} (body handler : M S A) : M S A :=
  fun s =>
    match body s with
    | (t1, s1, Failed e) =>
        if caught e then let '(t2, s2, o) := handler s1 in (t1 ++ t2, s2, o)
        else (t1, s1, Failed e)
    | r => r
    end.

Definition post {S} (w : world) (url : string) (headers : list (string * string))
    (body : pyval) : M S Response :=
  fun s => ([HttpPost url headers body], s,
            match requests_post w url headers body with
            | Ok r => Done r
            | Raise e => Failed e
            end).

Definition invoke {S} (w : world) (llm : ChatGroq) (prompt : string) : M S string :=
  fun s => ([LlmInvoke llm prompt], s,
            match llm_invoke w llm prompt with
            | Ok r => Done r
            | Raise e => Failed e
            end).

(** [ChatPromptTemplate.from_template(t).format(...)]: the template is one
    human message, and the chat prompt renders to text as that message behind
    its role. *)
Definition ChatPromptTemplate_format (template : string)
    (kwargs : list (string * pyval)) : result string :=
  t ← format template kwargs; mret ("Human: " +:+ t).

(** *** Streamlit *)

(** The store of [st.cache_data] for a function of one string: argument to
    returned value. *)
Abbreviation cache := (gmap string pyval).

(** [@st.cache_data]: a call whose argument is in the store returns the stored
    value and does not run the body; a call that returns is stored; a call
    that raises is not. *)
Definition st_cache_data (f : string -> M cache pyval) (arg : string) : M cache pyval :=
  fun c =>
    match c !! arg with
    | Some v => ([], c, Done v)
    | None =>
        match f arg c with
        | (t, c', Done v) => (t, <[arg := v]> c', Done v)
        | r => r
        end
    end.

Definition st_stop {S A} : M S A := fun s => ([], s, Stopped).

(** ** travel_planner.py *)

(** The console keeps nothing between calls: its functions run over any
    store [S] and leave it as it is. *)
Module TravelPlanner.
Section Program.
Context {S : Type} (w : world).

Definition get_llm (model : string) : ChatGroq :=
  {| api_key := GROQ_API_KEY w; model := model |}.

Definition serper_search (query : string) : M S pyval :=
  let url := "https://google.serper.dev/search" in
  let headers := [("X-API-KEY", SERPER_API_KEY w); ("Content-Type", "application/json")] in
  resp ← post w url headers (PDict [("q", PStr query)]);
  if negb (status_code resp =? 200) then mret (PDict [("error", PStr (text resp))])
  else lift (json resp).

Definition summarize_search_results (search_results : pyval) : result string :=
  snippets ← get search_results "organic" (PList []);
  top ← slice_to 5 snippets;
  items ← iter top;
  summary_lines ← for_each (fun snippet =>
      title ← get snippet "title" (PStr "N/A");
      link ← get snippet "link" (PStr "N/A");
      snippet_text ← get snippet "snippet" (PStr "N/A");
      mret ("Title: " +:+ str title +:+ nl +:+ "URL: " +:+ str link +:+ nl +:+
            "Summary: " +:+ str snippet_text +:+ nl +:+ "---")) items;
  mret (join nl summary_lines).

Definition prompt_template : string :=
  "You are an expert travel agent. Create a detailed day-by-day travel itinerary " +:+
  "for a {duration}-day trip to {destination}. " +:+
  "The user has these preferences: {preferences}" +:+ nl +:+ nl +:+
  "Here is some information I found from my research:" +:+ nl +:+
  "{search_summary}" +:+ nl +:+ nl +:+
  "Please use this information to create the itinerary. For each day, suggest " +:+
  "2-3 activities, a food recommendation, and some practical travel tips. " +:+
  "Keep the tone friendly and helpful. Do not mention that you used a search engine.".

Definition build_itinerary (llm : ChatGroq) (destination : string) (duration : Z)
    (preferences search_summary : string) : M S string :=
  formatted_prompt ← lift (ChatPromptTemplate_format prompt_template
      [("destination", PStr destination); ("duration", PInt duration);
       ("preferences", PStr preferences); ("search_summary", PStr search_summary)]);
  res ← invoke w llm formatted_prompt;
  mret res.

(** [main()], given the two lines that [input] reads. *)
Definition main (destination preferences : string) : M S unit :=
  emit (Print "Welcome to your AI Travel Itinerary Creator!");;
  emit (Input "Where do you want to go? Please enter the city and number of days (e.g., Chennai, 3 days): ");;
  emit (Input "Any specific preferences? (e.g., history, budget, food): ");;
  try_except
    (let dest_parts := split comma destination in
     place ← lift (p ← index dest_parts 0; mret (strip p));
     num_days ← lift (p ← index dest_parts 1; t ← index (split_ws (strip p)) 0; int t);
     emit (Print (nl +:+ "Planning a " +:+ str_of_int num_days +:+ "-day trip to " +:+ place +:+ "..."));;
     let llm := get_llm "llama-3.3-70b-versatile" in
     let query := "best things to do in " +:+ place +:+ " for " +:+ str_of_int num_days +:+
                  " days " +:+ preferences +:+ " travel guide" in
     emit (Print ("Searching the web for '" +:+ query +:+ "'..."));;
     search_results ← serper_search query;
     has_error ← lift (contains "error" search_results);
     if has_error : bool then
       err ← lift (getitem search_results "error");
       emit (Print ("Error during search: " +:+ str err))
     else
       search_summary ← lift (summarize_search_results search_results);
       if is_empty search_summary then
         emit (Print "Could not find relevant information. Please try a different query.")
       else
         emit (Print "Generating your custom itinerary...");;
         itinerary ← build_itinerary llm place num_days preferences search_summary;
         emit (Print (nl +:+ str_mul "=" 50));;
         emit (Print ("Here is your " +:+ str_of_int num_days +:+ "-day itinerary for " +:+ place +:+ ":"));;
         emit (Print (str_mul "=" 50));;
         emit (Print itinerary))
    (emit (Print "Invalid input format. Please follow the example: 'Chennai, 3 days'.")).

End Program.
End TravelPlanner.

(** ** app.py *)

Module App.
Section Program.
Context (w : world).

(** [@st.cache_resource]: one client per process; building it has no effect
    that the model records. *)
Definition get_llm (model : string) : ChatGroq :=
  {| api_key := GROQ_API_KEY w; model := model |}.

Definition serper_search : string -> M cache pyval :=
  st_cache_data (fun query =>
    let url := "https://google.serper.dev/search" in
    let headers := [("X-API-KEY", SERPER_API_KEY w); ("Content-Type", "application/json")] in
    resp ← post w url headers (PDict [("q", PStr query)]);
    if negb (status_code resp =? 200) then mret (PDict [("error", PStr (text resp))])
    else lift (json resp)).

Definition summarize_search_results (search_results : pyval) : result string :=
  snippets ← get search_results "organic" (PList []);
  top ← slice_to 5 snippets;
  items ← iter top;
  summary_lines ← for_each (fun snippet =>
      title ← get snippet "title" (PStr "N/A");
      link ← get snippet "link" (PStr "N/A");
      snippet_text ← get snippet "snippet" (PStr "N/A");
      mret ("Title: " +:+ str title +:+ nl +:+ "URL: " +:+ str link +:+ nl +:+
            "Summary: " +:+ str snippet_text +:+ nl +:+ "---")) items;
  mret (join nl summary_lines).

Definition prompt_template : string :=
  "You are an expert travel agent. Create a detailed day-by-day travel itinerary " +:+
  "for a {duration}-day trip to {destination}. " +:+
  "The user has these preferences: {preferences}" +:+ nl +:+ nl +:+
  "Here is some information I found from my research:" +:+ nl +:+
  "{search_summary}" +:+ nl +:+ nl +:+
  "Please use this information to create the itinerary. For each day, suggest " +:+
  "2-3 activities, a food recommendation, and some practical travel tips. " +:+
  "Keep the tone friendly and helpful. Do not mention that you used a search engine.".

Definition build_itinerary (llm : ChatGroq) (destination : string) (duration : Z)
    (preferences search_summary : string) : M cache string :=
  formatted_prompt ← lift (ChatPromptTemplate_format prompt_template
      [("destination", PStr destination); ("duration", PInt duration);
       ("preferences", PStr preferences); ("search_summary", PStr search_summary)]);
  res ← invoke w llm formatted_prompt;
  mret res.

(** The script from [if submit_button and destination_days:] on, given the
    state of the button and the two text fields. *)
Definition form_submission (submit_button : bool) (destination_days preferences : string)
  : M cache unit :=
  if submit_button && negb (is_empty destination_days) then
    try_except
      (let dest_parts := split comma destination_days in
       place ← lift (p ← index dest_parts 0; mret (strip p));
       num_days ← lift (p ← index dest_parts 1; t ← index (split_ws (strip p)) 0; int t);
       emit (StSpinner ("Planning a " +:+ str_of_int num_days +:+ "-day trip to " +:+ place +:+ "..."));;
       let llm := get_llm "llama-3.3-70b-versatile" in
       let query := "best things to do in " +:+ place +:+ " for " +:+ str_of_int num_days +:+
                    " days " +:+ preferences +:+ " travel guide" in
       search_results ← serper_search query;
       has_error ← lift (contains "error" search_results);
       (if has_error : bool then
          err ← lift (getitem search_results "error");
          emit (StError ("Error during search: " +:+ str err));;
          st_stop
        else mret tt);;
       search_summary ← lift (summarize_search_results search_results);
       (if is_empty search_summary then
          emit (StWarning "Could not find relevant information. Please try a different query.");;
          st_stop
        else mret tt);;
       itinerary ← build_itinerary llm place num_days preferences search_summary;
       emit (StMarkdown "---");;
       emit (StHeader ("Your " +:+ str_of_int num_days +:+ "-Day Itinerary for " +:+ place +:+ ":"));;
       emit (StMarkdown itinerary))
      (emit (StError "Invalid input format. Please follow the example: 'Chennai, 3 days'."))
  else mret tt.

End Program.
End App.

(** ** The vocabulary of the properties *)

(** Lines 75-77 of travel_planner.py and 88-90 of app.py, which are the same
    three statements, as a function of the input line. *)
Definition parse_input (destination : string) : result (string * Z) :=
  let dest_parts := split comma destination in
  place ← (p ← index dest_parts 0; mret (strip p));
  num_days ← (p ← index dest_parts 1; t ← index (split_ws (strip p)) 0; int t);
  mret (place, num_days).

(** The text after the first comma, if there is a comma. *)
Fixpoint after_first_comma (s : string) : option string :=
  match s with
  | EmptyString => None
  | String c r => if Ascii.eqb c comma then Some r else after_first_comma r
  end.

(** The text before the first comma (all of it when there is none). *)
Fixpoint up_to_comma (s : string) : string :=
  match s with
  | EmptyString => EmptyString
  | String c r => if Ascii.eqb c comma then EmptyString else String c (up_to_comma r)
  end.

(** The longest prefix without whitespace. *)
Fixpoint take_token (s : string) : string :=
  match s with
  | EmptyString => EmptyString
  | String c r => if isspace c then EmptyString else String c (take_token r)
  end.

(** The first whitespace-separated token. *)
Definition first_token (s : string) : option string :=
  match lstrip s with
  | EmptyString => None
  | String c r => Some (String c (take_token r))
  end.

(** A decimal integer token: one or more of the digits 0-9. *)
Fixpoint all_digits (s : string) : bool :=
  match s with
  | EmptyString => true
  | String c r => bool_decide (is_Some (digit_value c)) && all_digits r
  end.

Definition decimal_token (s : string) : bool := negb (is_empty s) && all_digits s.

(** A run of zeros. *)
Fixpoint all_zeros (s : string) : bool :=
  match s with
  | EmptyString => true
  | String c r => Ascii.eqb c "0" && all_zeros r
  end.

(** The number a run of digits denotes, read left to right from [acc]. *)
Fixpoint decimal_from (acc : Z) (s : string) : Z :=
  match s with
  | EmptyString => acc
  | String c r => decimal_from (10 * acc + default 0 (digit_value c)) r
  end.

Definition decimal_value (s : string) : Z := decimal_from 0 s.

(** [sub] occurs in [s]. *)
Definition occurs_in (sub s : string) : Prop :=
  exists pre post, s = pre +:+ sub +:+ post.

Fixpoint no_space (s : string) : bool :=
  match s with
  | EmptyString => true
  | String c r => negb (isspace c) && no_space r
  end.

(** *** What the user is shown *)

Definition console_header : list event :=
  [Print "Welcome to your AI Travel Itinerary Creator!";
   Input "Where do you want to go? Please enter the city and number of days (e.g., Chennai, 3 days): ";
   Input "Any specific preferences? (e.g., history, budget, food): "].

Definition invalid_format : string :=
  "Invalid input format. Please follow the example: 'Chennai, 3 days'.".

Definition try_different_query : string :=
  "Could not find relevant information. Please try a different query.".

Definition search_error (err : pyval) : string := "Error during search: " +:+ str err.

(** The query both front ends send for a parsed request. *)
Definition search_query (place : string) (num_days : Z) (preferences : string) : string :=
  "best things to do in " +:+ place +:+ " for " +:+ str_of_int num_days +:+
  " days " +:+ preferences +:+ " travel guide".

Definition default_llm (w : world) : ChatGroq :=
  {| api_key := GROQ_API_KEY w; model := "llama-3.3-70b-versatile" |}.

(** The progress lines of the console before the search is made. *)
Definition console_progress (place : string) (num_days : Z) (preferences : string) : list event :=
  [Print (nl +:+ "Planning a " +:+ str_of_int num_days +:+ "-day trip to " +:+ place +:+ "...");
   Print ("Searching the web for '" +:+ search_query place num_days preferences +:+ "'...")].

Definition web_progress (place : string) (num_days : Z) : list event :=
  [StSpinner ("Planning a " +:+ str_of_int num_days +:+ "-day trip to " +:+ place +:+ "...")].

(** *** The search call *)

Definition search_url : string := "https://google.serper.dev/search".

Definition search_headers (w : world) : list (string * string) :=
  [("X-API-KEY", SERPER_API_KEY w); ("Content-Type", "application/json")].

Definition search_body (query : string) : pyval := PDict [("q", PStr query)].

Definition search_call (w : world) (query : string) : event :=
  HttpPost search_url (search_headers w) (search_body query).

(** What the provider answers to the request for [query]. *)
Definition search_response (w : world) (query : string) : result Response :=
  requests_post w search_url (search_headers w) (search_body query).

Definition of_result {A} (r : result A) : outcome A :=
  match r with
  | Ok a => Done a
  | Raise e => Failed e
  end.

(** The record the search client returns for a status other than 200. *)
Definition error_record (body_text : string) : pyval := PDict [("error", PStr body_text)].

(** A value returned by a cached function is put in the store. *)
Definition stored (query : string) (r : list event * cache * outcome pyval)
  : list event * cache * outcome pyval :=
  match r with
  | (t, c, Done v) => (t, <[query := v]> c, Done v)
  | _ => r
  end.

(** *** Summary blocks *)

(** A field of an entry as the summary shows it. *)
Definition field (entry : list (string * pyval)) (key : string) : string :=
  match lookup_item key entry with
  | Some x => str x
  | None => "N/A"
  end.

(** The block of one entry: three labelled lines and the delimiter line. *)
Definition block (entry : list (string * pyval)) : string :=
  "Title: " +:+ field entry "title" +:+ nl +:+
  "URL: " +:+ field entry "link" +:+ nl +:+
  "Summary: " +:+ field entry "snippet" +:+ nl +:+
  "---".

(** *** The prompt *)

(** The text sent to the model: the template with the four values in the
    place of the four replacement fields, behind the role of the message. *)
Definition rendered_prompt (destination : string) (duration : Z)
    (preferences search_summary : string) : string :=
  "Human: You are an expert travel agent. Create a detailed day-by-day travel itinerary for a " +:+
  str_of_int duration +:+ "-day trip to " +:+ destination +:+
  ". The user has these preferences: " +:+ preferences +:+ nl +:+ nl +:+
  "Here is some information I found from my research:" +:+ nl +:+
  search_summary +:+ nl +:+ nl +:+
  "Please use this information to create the itinerary. For each day, suggest 2-3 activities, a food recommendation, and some practical travel tips. Keep the tone friendly and helpful. Do not mention that you used a search engine.".

Definition prompt_kwargs (destination : string) (duration : Z)
    (preferences search_summary : string) : list (string * pyval) :=
  [("destination", PStr destination); ("duration", PInt duration);
   ("preferences", PStr preferences); ("search_summary", PStr search_summary)].

(** The four replacement fields of the template. *)
Definition placeholders : list string :=
  ["{duration}"; "{destination}"; "{preferences}"; "{search_summary}"].


(** *** Stages of a run *)

Definition is_search_call (e : event) : bool :=
  match e with
  | HttpPost _ _ _ => true
  | _ => false
  end.

Definition is_llm_call (e : event) : bool :=
  match e with
  | LlmInvoke _ _ => true
  | _ => false
  end.

Definition generating : string := "Generating your custom itinerary...".

(** The itinerary as the console prints it and as the page renders it. *)
Definition console_presentation (place : string) (num_days : Z) (itinerary : string)
  : list event :=
  [Print (nl +:+ str_mul "=" 50);
   Print ("Here is your " +:+ str_of_int num_days +:+ "-day itinerary for " +:+ place +:+ ":");
   Print (str_mul "=" 50);
   Print itinerary].

Definition web_presentation (place : string) (num_days : Z) (itinerary : string)
  : list event :=
  [StMarkdown "---";
   StHeader ("Your " +:+ str_of_int num_days +:+ "-Day Itinerary for " +:+ place +:+ ":");
   StMarkdown itinerary].

(** The events that only the presentation of an itinerary produces: the
    heading of the console, the rule, heading and text of the page. *)
Definition shows_itinerary (e : event) : bool :=
  match e with
  | Print s => String.prefix "Here is your " s
  | StHeader _ | StMarkdown _ => true
  | _ => false
  end.

(** What holds of the trace [t] and outcome [o] of a console run. *)
Definition console_staged {S} (w : world) (d p : string) (s : S)
    (t : list event) (o : outcome unit) : Prop :=
  (length (List.filter is_search_call t) <= 1)%nat /\
  (length (List.filter is_llm_call t) <= 1)%nat /\
  (forall llm prompt, In (LlmInvoke llm prompt) t ->
     exists place n ts s1 sr summary post,
       parse_input d = Ok (place, n) /\
       TravelPlanner.serper_search w (search_query place n p) s = (ts, s1, Done sr) /\
       contains "error" sr = Ok false /\
       TravelPlanner.summarize_search_results sr = Ok summary /\
       summary <> EmptyString /\
       prompt = rendered_prompt place n p summary /\
       t = console_header ++ console_progress place n p ++ ts ++
           [Print generating; LlmInvoke llm prompt] ++ post) /\
  (existsb shows_itinerary t = true ->
     exists place n pre llm prompt itinerary,
       parse_input d = Ok (place, n) /\
       In (LlmInvoke llm prompt) pre /\
       llm_invoke w llm prompt = Ok itinerary /\
       o = Done tt /\
       t = pre ++ console_presentation place n itinerary /\
       existsb shows_itinerary pre = false).

(** What holds of the trace [t] and outcome [o] of a form submission. *)
Definition web_staged (w : world) (d p : string) (c : cache)
    (t : list event) (o : outcome unit) : Prop :=
  (length (List.filter is_search_call t) <= 1)%nat /\
  (length (List.filter is_llm_call t) <= 1)%nat /\
  (forall llm prompt, In (LlmInvoke llm prompt) t ->
     exists place n ts c1 sr summary post,
       parse_input d = Ok (place, n) /\
       App.serper_search w (search_query place n p) c = (ts, c1, Done sr) /\
       contains "error" sr = Ok false /\
       App.summarize_search_results sr = Ok summary /\
       summary <> EmptyString /\
       prompt = rendered_prompt place n p summary /\
       t = web_progress place n ++ ts ++ [LlmInvoke llm prompt] ++ post) /\
  (existsb shows_itinerary t = true ->
     exists place n pre llm prompt itinerary,
       parse_input d = Ok (place, n) /\
       In (LlmInvoke llm prompt) pre /\
       llm_invoke w llm prompt = Ok itinerary /\
       o = Done tt /\
       t = pre ++ web_presentation place n itinerary /\
       existsb shows_itinerary pre = false).

(** The integer that leads a text: its first whitespace-separated token, when
    [int] accepts it. *)
Definition leading_int (text : string) : option Z :=
  match first_token text with
  | Some t => match int t with Ok n => Some n | Raise _ => None end
  | None => None
  end.

(** *** Sample surroundings *)

Definition sample_entries : list (list (string * pyval)) :=
  [[("title", PStr "Ooty Lake"); ("link", PStr "https://example.org/lake");
    ("snippet", PStr "Boating on the lake.")];
   [("title", PStr "Tea Museum")]].

Definition sample_results : list (string * pyval) :=
  [("organic", PList (map PDict sample_entries))].

(** A provider that answers every request with [resp], and a model that
    answers every prompt with the same text. *)
Definition answering (resp : Response) : world :=
  {| GROQ_API_KEY := "groq-key";
     SERPER_API_KEY := "serper-key";
     requests_post := fun _ _ _ => Ok resp;
     llm_invoke := fun _ _ => Ok "Day 1: the lake." |}.

Definition response_ok (body : pyval) : Response :=
  {| status_code := 200; text := "(the body as text)"; json := Ok body |}.

Definition response_failed (code : Z) (body_text : string) : Response :=
  {| status_code := code; text := body_text; json := Raise ValueError |}.

(** ** One pipeline, two front ends *)

(** What differs between the two front ends: what is shown before the input is
    read, the progress shown once it is parsed and just before the generation
    call, how an error, a warning and the itinerary are shown, and how a
    request that is given up ends ([return] in [main], [st.stop()] on the
    page). *)
Record front_end := {
  fe_header : list event;
  fe_progress : string -> Z -> string -> list event;
  fe_generating : list event;
  fe_error : string -> event;
  fe_warning : string -> event;
  fe_present : string -> Z -> string -> list event;
  fe_halt : outcome unit
}.

Definition console : front_end :=
  {| fe_header := console_header;
     fe_progress := console_progress;
     fe_generating := [Print generating];
     fe_error := Print;
     fe_warning := Print;
     fe_present := console_presentation;
     fe_halt := Done tt |}.

Definition page : front_end :=
  {| fe_header := [];
     fe_progress := fun place num_days _ => web_progress place num_days;
     fe_generating := [];
     fe_error := StError;
     fe_warning := StWarning;
     fe_present := web_presentation;
     fe_halt := Stopped |}.

(** The end of a run in which [e] was raised inside the [try] block, after
    the events [t]. *)
Definition handled {S} (fe : front_end) (t : list event) (s : S) (e : exn)
  : list event * S * outcome unit :=
  if caught e then (t ++ [fe_error fe invalid_format], s, Done tt)
  else (t, s, Failed e).

(** A request as a decision tree over the parser, the search client
    [search], the summarizer and the hosted model. *)
Definition pipeline {S} (fe : front_end) (w : world) (search : string -> M S pyval)
    (d p : string) (s : S) : list event * S * outcome unit :=
  match parse_input d with
  | Raise _ => (fe_header fe ++ [fe_error fe invalid_format], s, Done tt)
  | Ok (place, n) =>
      let '(ts, s1, o1) := search (search_query place n p) s in
      let pre := fe_header fe ++ fe_progress fe place n p ++ ts in
      match o1 with
      | Failed e => handled fe pre s1 e
      | Stopped => (pre, s1, Stopped)
      | Done sr =>
          match contains "error" sr with
          | Raise e => handled fe pre s1 e
          | Ok true =>
              match getitem sr "error" with
              | Ok err => (pre ++ [fe_error fe (search_error err)], s1, fe_halt fe)
              | Raise e => handled fe pre s1 e
              end
          | Ok false =>
              match TravelPlanner.summarize_search_results sr with
              | Raise e => handled fe pre s1 e
              | Ok summary =>
                  if is_empty summary then
                    (pre ++ [fe_warning fe try_different_query], s1, fe_halt fe)
                  else
                    let prompt := rendered_prompt place n p summary in
                    let pre2 := pre ++ fe_generating fe ++ [LlmInvoke (default_llm w) prompt] in
                    match llm_invoke w (default_llm w) prompt with
                    | Ok itinerary => (pre2 ++ fe_present fe place n itinerary, s1, Done tt)
                    | Raise e => handled fe pre2 s1 e
                    end
              end
          end
      end
  end.

(** What the search client of the console returns for [query]: what the body
    decodes to for status 200, the error record for another status, the
    exception of the request or of the decoding otherwise. *)
Definition search_reply (w : world) (query : string) : outcome pyval :=
  match search_response w query with
  | Ok resp =>
      if status_code resp =? 200 then of_result (json resp)
      else Done (error_record (text resp))
  | Raise e => Failed e
  end.

(** The network calls of a trace, in order. *)
Definition network (t : list event) : list event :=
  List.filter (fun e => is_search_call e || is_llm_call e) t.

(** The calls a request is to make: the search for the parsed input, then the
    generation call when the search gave a value without "error" in it and a
    summary that is not empty. *)
Definition expected_calls (w : world) (d p : string) : list event :=
  match parse_input d with
  | Raise _ => []
  | Ok (place, n) =>
      search_call w (search_query place n p) ::
      match search_reply w (search_query place n p) with
      | Done sr =>
          match contains "error" sr, TravelPlanner.summarize_search_results sr with
          | Ok false, Ok summary =>
              if is_empty summary then []
              else [LlmInvoke (default_llm w) (rendered_prompt place n p summary)]
          | _, _ => []
          end
      | _ => []
      end
  end.

Definition is_dict (v : pyval) : bool :=
  match v with
  | PDict _ => true
  | _ => false
  end.

(** The display events of a front end are no network calls. *)
Definition quiet (fe : front_end) : Prop :=
  network (fe_header fe) = [] /\
  (forall place n p, network (fe_progress fe place n p) = []) /\
  network (fe_generating fe) = [] /\
  (forall msg, network [fe_error fe msg] = []) /\
  (forall msg, network [fe_warning fe msg] = []) /\
  (forall place n itinerary, network (fe_present fe place n itinerary) = []).

(** A provider that answers every request with [resp], and a model that
    raises [e] on every prompt. *)
Definition answering_without_model (resp : Response) (e : exn) : world :=
  {| GROQ_API_KEY := "groq-key";
     SERPER_API_KEY := "serper-key";
     requests_post := fun _ _ _ => Ok resp;
     llm_invoke := fun _ _ => Raise e |}.

(** The newline character, and the four lines of the block of an entry. *)
Definition newline : ascii := ascii_of_nat 10.

Definition block_lines (entry : list (string * pyval)) : list string :=
  ["Title: " +:+ field entry "title";
   "URL: " +:+ field entry "link";
   "Summary: " +:+ field entry "snippet";
   "---"].

(** The three fields of an entry render without a newline. *)
Definition one_line_fields (entry : list (string * pyval)) : bool :=
  negb (contains_char newline (field entry "title")) &&
  negb (contains_char newline (field entry "link")) &&
  negb (contains_char newline (field entry "snippet")).

(** A text of whitespace only. *)
Fixpoint all_space (s : string) : bool :=
  match s with
  | EmptyString => true
  | String c r => isspace c && all_space r
  end.

Definition starts_with_space (s : string) : bool :=
  match s with
  | EmptyString => false
  | String c _ => isspace c
  end.

Fixpoint ends_with_space (s : string) : bool :=
  match s with
  | EmptyString => false
  | String c EmptyString => isspace c
  | String _ r => ends_with_space r
  end.

(** ** travel_planner.py run as a script *)

(** The process environment as [load_dotenv()] leaves it, and the network. *)
Record host := {
  getenv : string -> option string;
  host_post : string -> list (string * string) -> pyval -> result Response;
  host_invoke : ChatGroq -> string -> result string
}.

(** [not v] for what [os.getenv] returns: None and the empty string. *)
Definition falsy (v : option string) : bool :=
  match v with
  | None => true
  | Some s => is_empty s
  end.

Definition world_of (h : host) (groq_api_key serper_api_key : string) : world :=
  {| GROQ_API_KEY := groq_api_key;
     SERPER_API_KEY := serper_api_key;
     requests_post := host_post h;
     llm_invoke := host_invoke h |}.

(** The module from top to bottom: the two keys are read and checked, the
    functions are defined, and [main()] is called. The [raise] of the check
    is outside every [try]. *)
Definition travel_planner_script (h : host) (destination preferences : string)
  : M unit unit :=
  let groq_api_key := getenv h "GROQ_API_KEY" in
  let serper_api_key := getenv h "SERPER_API_KEY" in
  if falsy groq_api_key || falsy serper_api_key then lift (Raise ValueError)
  else TravelPlanner.main
         (world_of h (default EmptyString groq_api_key) (default EmptyString serper_api_key))
         destination preferences.

(** An environment with the two keys as given, a provider that answers every
    request with [resp] and a model that answers every prompt with the same
    text. *)
Definition host_with (groq_api_key serper_api_key : option string) (resp : Response) : host :=
  {| getenv := fun name =>
       if String.eqb name "GROQ_API_KEY" then groq_api_key
       else if String.eqb name "SERPER_API_KEY" then serper_api_key
       else None;
     host_post := fun _ _ _ => Ok resp;
     host_invoke := fun _ _ => Ok "Day 1: the lake." |}.

(** * Properties *)

(** ** Sample evaluations of the runtime *)

Example int_ex1 : Py.int "12" = Py.Ok 12. Proof. reflexivity. Qed.
Example int_ex2 : Py.int "-1_000" = Py.Ok (-1000). Proof. reflexivity. Qed.
Example int_ex3 : Py.int "3days" = Py.Raise Py.ValueError. Proof. reflexivity. Qed.
Example str_ex1 : Py.str_of_int 0 = "0". Proof. reflexivity. Qed.
Example str_ex2 : Py.str_of_int (-40) = "-40". Proof. reflexivity. Qed.
Example split_ex : Py.split Py.comma "a,,b c," = ["a"; EmptyString; "b c"; EmptyString]. Proof. reflexivity. Qed.
Example split_ws_ex : Py.split_ws "  ab  c d " = ["ab"; "c"; "d"]. Proof. reflexivity. Qed.
Example strip_ex : Py.strip "  a b  " = "a b". Proof. reflexivity. Qed.
Example repr_ex : Py.repr (Py.PDict [("a", Py.PList [Py.PInt 1; Py.PStr "it's"; Py.PNone])]) = String "{" ("'a': [1, " +:+ String Py.dquote ("it's" +:+ String Py.dquote (", None]}"))). Proof. reflexivity. Qed.
Example format_ex : Py.format "a {x}-{y} {{b}}" [("x", Py.PInt 3); ("y", Py.PStr "{x}")] = Py.Ok "a 3-{x} {b}". Proof. reflexivity. Qed.

(** ** Strings *)

Section Strings.

Lemma eqb_comma_space c : Ascii.eqb c comma = true -> isspace c = false.
Proof. intros H%Ascii.eqb_eq. by subst. Qed.

Lemma split_unfold s :
  split comma s =
  up_to_comma s :: match after_first_comma s with
                   | Some r => split comma r
                   | None => []
                   end.
Proof.
  induction s as [|c r IH]; simpl; [done|].
  destruct (Ascii.eqb c comma); [done|].
  by rewrite IH.
Qed.

Lemma split_ws_head s : head (split_ws s) = first_token s.
Proof.
  unfold first_token.
  induction s as [|c r IH]; simpl; [done|].
  destruct (isspace c) eqn:Hc; [done|].
  destruct r as [|d r']; [done|].
  remember (split_ws (String d r')) as l eqn:Hl.
  simpl in IH. simpl take_token.
  destruct (isspace d) eqn:Hd; [done|].
  destruct l as [|t ts]; simpl in *; [done|].
  by injection IH as ->.
Qed.

Lemma take_token_rstrip s : take_token (rstrip s) = take_token s.
Proof.
  induction s as [|c r IH]; simpl; [done|].
  destruct (isspace c) eqn:Hc; simpl.
  - destruct (is_empty (rstrip r)); simpl; [done|]. by rewrite Hc.
  - by rewrite Hc, IH.
Qed.

Lemma first_token_rstrip s : first_token (rstrip s) = first_token s.
Proof.
  unfold first_token.
  induction s as [|c r IH]; simpl; [done|].
  destruct (isspace c) eqn:Hc; simpl.
  - destruct (rstrip r) eqn:Hr; simpl in *; [done|].
    by rewrite Hc.
  - by rewrite Hc, take_token_rstrip.
Qed.

Lemma first_token_lstrip s : first_token (lstrip s) = first_token s.
Proof.
  unfold first_token.
  induction s as [|c r IH]; simpl; [done|].
  destruct (isspace c) eqn:Hc; simpl; [done|]. by rewrite Hc.
Qed.

Lemma first_token_strip s : first_token (strip s) = first_token s.
Proof. unfold strip. by rewrite first_token_rstrip, first_token_lstrip. Qed.

End Strings.

(** ** The parser *)

Section Parser.

Lemma index_0_head {A} (l : list A) :
  index l 0 = match head l with Some a => Ok a | None => Raise IndexError end.
Proof. by destruct l. Qed.

(** The three statements, read off the input: the field after the first
    comma ends at the next comma, and its first token goes to [int]. *)
Lemma parse_input_unfold s :
  parse_input s =
  match after_first_comma s with
  | None => Raise IndexError
  | Some r =>
      match first_token (up_to_comma r) with
      | None => Raise IndexError
      | Some t =>
          match int t with
          | Ok n => Ok (strip (up_to_comma s), n)
          | Raise e => Raise e
          end
      end
  end.
Proof.
  unfold parse_input. rewrite split_unfold. simpl.
  destruct (after_first_comma s) as [r|]; [|done].
  rewrite (split_unfold r). simpl.
  rewrite index_0_head, split_ws_head, first_token_strip.
  destruct (first_token (up_to_comma r)) as [t|]; simpl; [|done].
  by destruct (int t).
Qed.

Lemma int_raises s e : int s = Raise e -> e = ValueError.
Proof.
  unfold int.
  destruct (strip s) as [|c r]; simpl.
  - intros [= <-]. done.
  - destruct (Ascii.eqb c "+"), (Ascii.eqb c "-");
      repeat match goal with
             | |- context [match ?x with _ => _ end] => destruct x
             end; congruence.
Qed.

Lemma parse_input_raises s e : parse_input s = Raise e -> caught e = true.
Proof.
  rewrite parse_input_unfold.
  destruct (after_first_comma s) as [r|]; [|by intros [= <-]].
  destruct (first_token (up_to_comma r)) as [t|]; [|by intros [= <-]].
  destruct (int t) eqn:Hi; [done|].
  intros [= <-]. by rewrite (int_raises _ _ Hi).
Qed.

End Parser.

(** ** Digits and tokens *)

Section Digits.

Lemma digit_not_space c : is_Some (digit_value c) -> isspace c = false.
Proof.
  destruct c as [[] [] [] [] [] [] [] []]; vm_compute; intros [? ?]; congruence.
Qed.

Lemma digit_not_underscore c : is_Some (digit_value c) -> Ascii.eqb c underscore = false.
Proof.
  destruct (Ascii.eqb c underscore) eqn:H; [|done].
  apply Ascii.eqb_eq in H as ->. vm_compute. intros [? ?]; congruence.
Qed.

Lemma digit_not_comma c : is_Some (digit_value c) -> Ascii.eqb c comma = false.
Proof.
  destruct (Ascii.eqb c comma) eqn:H; [|done].
  apply Ascii.eqb_eq in H as ->. vm_compute. intros [? ?]; congruence.
Qed.

Lemma digit_not_sign c :
  is_Some (digit_value c) -> Ascii.eqb c "+" = false /\ Ascii.eqb c "-" = false.
Proof.
  intros H. split.
  - destruct (Ascii.eqb c "+") eqn:E; [|done].
    apply Ascii.eqb_eq in E as ->. destruct H as [? H]. vm_compute in H. congruence.
  - destruct (Ascii.eqb c "-") eqn:E; [|done].
    apply Ascii.eqb_eq in E as ->. destruct H as [? H]. vm_compute in H. congruence.
Qed.

Lemma digit_value_range c d : digit_value c = Some d -> 0 <= d <= 9.
Proof.
  unfold digit_value.
  destruct (_ && _)%N eqn:H; [|done].
  intros [= <-]. apply andb_true_iff in H as [H1%N.leb_le H2%N.leb_le]. lia.
Qed.

Lemma all_digits_cons c r :
  all_digits (String c r) = true <-> is_Some (digit_value c) /\ all_digits r = true.
Proof.
  simpl. rewrite andb_true_iff, bool_decide_eq_true. done.
Qed.

Lemma lstrip_no_space s : no_space s = true -> lstrip s = s.
Proof.
  destruct s as [|c r]; simpl; [done|].
  intros [Hc _]%andb_true_iff. by destruct (isspace c).
Qed.

Lemma rstrip_no_space s : no_space s = true -> rstrip s = s.
Proof.
  induction s as [|c r IH]; simpl; [done|].
  intros [Hc Hr]%andb_true_iff. rewrite (IH Hr).
  by destruct (isspace c).
Qed.

Lemma strip_no_space s : no_space s = true -> strip s = s.
Proof.
  intros H. unfold strip. by rewrite lstrip_no_space, rstrip_no_space.
Qed.

Lemma all_digits_no_space s : all_digits s = true -> no_space s = true.
Proof.
  induction s as [|c r IH]; [done|].
  intros [Hc Hr]%all_digits_cons. simpl.
  by rewrite (digit_not_space c Hc), (IH Hr).
Qed.

Lemma take_token_no_space s : no_space (take_token s) = true.
Proof.
  induction s as [|c r IH]; simpl; [done|].
  destruct (isspace c) eqn:Hc; simpl; [done|]. by rewrite Hc.
Qed.

Lemma first_token_no_space s t : first_token s = Some t -> no_space t = true.
Proof.
  unfold first_token.
  assert (H : forall x, match lstrip x with
                        | EmptyString => True
                        | String c _ => isspace c = false
                        end).
  { induction x as [|c r IH]; simpl; [done|]. by destruct (isspace c) eqn:Hc. }
  specialize (H s). destruct (lstrip s) as [|c r]; [done|].
  intros [= <-]. simpl. by rewrite H, take_token_no_space.
Qed.

Lemma contains_char_app c s1 s2 :
  contains_char c (s1 +:+ s2) = contains_char c s1 || contains_char c s2.
Proof.
  induction s1 as [|d r IH]; simpl; [done|].
  by rewrite IH, orb_assoc.
Qed.

Lemma all_digits_no_comma s : all_digits s = true -> contains_char comma s = false.
Proof.
  induction s as [|c r IH]; [done|].
  intros [Hc Hr]%all_digits_cons.
  change (Ascii.eqb comma c || contains_char comma r = false).
  rewrite (IH Hr), orb_false_r.
  destruct (Ascii.eqb_spec comma c) as [<-|]; [|done].
  by apply digit_not_comma in Hc.
Qed.

(** Reading a run of digits: the value so far is carried on, every digit is
    counted. *)
Lemma scan_digits_all_digits s acc cnt :
  all_digits s = true ->
  scan_digits false acc cnt s = Some (decimal_from acc s, (cnt + String.length s)%nat).
Proof.
  revert acc cnt. induction s as [|c r IH]; intros acc cnt; simpl.
  - intros _. by rewrite Nat.add_0_r.
  - intros [Hc Hr]%andb_true_iff. apply bool_decide_eq_true in Hc.
    rewrite (digit_not_underscore c Hc).
    destruct Hc as [d Hd]. rewrite Hd. simpl.
    rewrite (IH _ _ Hr). do 2 f_equal. lia.
Qed.

Lemma int_decimal_token s :
  decimal_token s = true ->
  (String.length s <= int_max_str_digits)%nat ->
  int s = Ok (decimal_value s).
Proof.
  intros [Hne Hd]%andb_true_iff Hlen.
  unfold int. rewrite (strip_no_space s (all_digits_no_space s Hd)).
  destruct s as [|c r]; [done|].
  pose proof Hd as [Hc Hr]%all_digits_cons.
  destruct (digit_not_sign c Hc) as [-> ->].
  unfold parse_digits. rewrite (digit_not_underscore c Hc).
  rewrite (scan_digits_all_digits _ 0 0 Hd), Nat.add_0_l.
  by rewrite (proj2 (Nat.ltb_ge _ _) Hlen).
Qed.

Lemma decimal_from_mono s acc : 0 <= acc -> acc <= decimal_from acc s.
Proof.
  revert acc. induction s as [|c r IH]; intros acc Hacc; simpl; [lia|].
  destruct (digit_value c) as [d|] eqn:Hd; simpl.
  - pose proof (digit_value_range c d Hd).
    etrans; [|apply IH]; lia.
  - etrans; [|apply IH]; lia.
Qed.

Lemma decimal_value_nonneg s : 0 <= decimal_value s.
Proof. by apply decimal_from_mono. Qed.

End Digits.

Ltac run :=
  cbv beta iota zeta delta
    [mbind mret M_bind M_ret bind ret try_except emit lift st_stop post invoke
     TravelPlanner.get_llm App.get_llm];
  cbn [app].

Section Runs.

Lemma parse_place d :
  (p ← index (split comma d) 0; mret (strip p)) = Ok (strip (up_to_comma d)).
Proof. by rewrite split_unfold. Qed.

Lemma parse_days d :
  (p ← index (split comma d) 1; t ← index (split_ws (strip p)) 0; int t) =
  match parse_input d with
  | Ok (_, n) => Ok n
  | Raise e => Raise e
  end.
Proof.
  unfold parse_input. rewrite parse_place. simpl.
  by destruct (_ ≫= _) .
Qed.

Lemma parse_input_place d place n :
  parse_input d = Ok (place, n) -> place = strip (up_to_comma d).
Proof.
  rewrite parse_input_unfold.
  destruct (after_first_comma d) as [r|]; [|done].
  destruct (first_token (up_to_comma r)) as [t|]; [|done].
  destruct (int t); congruence.
Qed.

Context {S : Type} (w : world).

Lemma main_invalid d p (s : S) e :
  parse_input d = Raise e ->
  TravelPlanner.main w d p s = (console_header ++ [Print invalid_format], s, Done tt).
Proof.
  intros Hp. unfold TravelPlanner.main.
  rewrite parse_place, parse_days, Hp. run.
  by rewrite (parse_input_raises _ _ Hp).
Qed.


Lemma main_error_key d p (s : S) place n ts s1 dict err :
  parse_input d = Ok (place, n) ->
  TravelPlanner.serper_search w (search_query place n p) s = (ts, s1, Done (PDict dict)) ->
  lookup_item "error" dict = Some err ->
  TravelPlanner.main w d p s =
    (console_header ++ console_progress place n p ++ ts ++ [Print (search_error err)], s1, Done tt).
Proof.
  intros Hp Hs He. unfold TravelPlanner.main.
  rewrite parse_place, parse_days, Hp, <- (parse_input_place _ _ _ Hp).
  unfold search_query in Hs. run. rewrite Hs.
  unfold contains, getitem. rewrite He. run.
  by rewrite bool_decide_eq_true_2 by eauto.
Qed.

Lemma main_empty_summary d p (s : S) place n ts s1 dict :
  parse_input d = Ok (place, n) ->
  TravelPlanner.serper_search w (search_query place n p) s = (ts, s1, Done (PDict dict)) ->
  lookup_item "error" dict = None ->
  TravelPlanner.summarize_search_results (PDict dict) = Ok EmptyString ->
  TravelPlanner.main w d p s =
    (console_header ++ console_progress place n p ++ ts ++ [Print try_different_query], s1, Done tt).
Proof.
  intros Hp Hs He Hsum. unfold TravelPlanner.main.
  rewrite parse_place, parse_days, Hp, <- (parse_input_place _ _ _ Hp).
  unfold search_query in Hs. run. rewrite Hs.
  unfold contains. rewrite He, Hsum. run.
  rewrite bool_decide_eq_false_2; [done|]. by intros [? ?].
Qed.

Lemma tp_search_run q (s : S) :
  TravelPlanner.serper_search w q s =
    ([search_call w q], s,
     match search_response w q with
     | Ok resp =>
         if status_code resp =? 200 then of_result (json resp)
         else Done (error_record (text resp))
     | Raise e => Failed e
     end).
Proof.
  unfold TravelPlanner.serper_search, search_response. run.
  fold search_url (search_headers w) (search_body q).
  destruct (requests_post w search_url (search_headers w) (search_body q)) as [resp|e]; [|done].
  destruct (status_code resp =? 200); simpl; [|done].
  by destruct (json resp).
Qed.

End Runs.

Section WebRuns.
Context (w : world).

Lemma app_search_body_eq q (c : cache) :
  App.serper_search w q c =
  match c !! q with
  | Some v => ([], c, Done v)
  | None => stored q (TravelPlanner.serper_search w q c)
  end.
Proof.
  unfold App.serper_search, st_cache_data.
  destruct (c !! q); [done|].
  fold (TravelPlanner.serper_search (S:=cache) w q).
  by destruct (TravelPlanner.serper_search w q c) as [[t c'] [v|e|]].
Qed.

Lemma form_idle b d p (c : cache) :
  b = false \/ d = EmptyString -> App.form_submission w b d p c = ([], c, Done tt).
Proof.
  intros [-> | ->]; [done|]. unfold App.form_submission. by rewrite andb_false_r.
Qed.

Lemma parse_input_nonempty d r : parse_input d = Ok r -> is_empty d = false.
Proof. by destruct d. Qed.

Lemma form_invalid d p (c : cache) e :
  d <> EmptyString ->
  parse_input d = Raise e ->
  App.form_submission w true d p c = ([StError invalid_format], c, Done tt).
Proof.
  intros Hd Hp. unfold App.form_submission.
  destruct d as [|a d']; [done|]. cbn [is_empty negb andb].
  rewrite parse_place, parse_days, Hp. run.
  by rewrite (parse_input_raises _ _ Hp).
Qed.

Lemma form_error_key d p (c : cache) place n ts c1 dict err :
  parse_input d = Ok (place, n) ->
  App.serper_search w (search_query place n p) c = (ts, c1, Done (PDict dict)) ->
  lookup_item "error" dict = Some err ->
  App.form_submission w true d p c =
    (web_progress place n ++ ts ++ [StError (search_error err)], c1, Stopped).
Proof.
  intros Hp Hs He. unfold App.form_submission.
  rewrite (parse_input_nonempty _ _ Hp). cbn [negb andb].
  rewrite parse_place, parse_days, Hp, <- (parse_input_place _ _ _ Hp).
  unfold search_query in Hs. run. rewrite Hs.
  unfold contains, getitem. rewrite He. run.
  by rewrite bool_decide_eq_true_2 by eauto.
Qed.

Lemma form_empty_summary d p (c : cache) place n ts c1 dict :
  parse_input d = Ok (place, n) ->
  App.serper_search w (search_query place n p) c = (ts, c1, Done (PDict dict)) ->
  lookup_item "error" dict = None ->
  App.summarize_search_results (PDict dict) = Ok EmptyString ->
  App.form_submission w true d p c =
    (web_progress place n ++ ts ++ [StWarning try_different_query], c1, Stopped).
Proof.
  intros Hp Hs He Hsum. unfold App.form_submission.
  rewrite (parse_input_nonempty _ _ Hp). cbn [negb andb].
  rewrite parse_place, parse_days, Hp, <- (parse_input_place _ _ _ Hp).
  unfold search_query in Hs. run. rewrite Hs.
  unfold contains. rewrite He, Hsum. run.
  rewrite bool_decide_eq_false_2; [done|]. by intros [? ?].
Qed.

End WebRuns.

(** ** The summarizer *)

Section Summarizer.

Lemma for_each_entries {B} (f : pyval -> result B) (g : list (string * pyval) -> B) entries :
  (forall e, f (PDict e) = Ok (g e)) ->
  for_each f (map PDict entries) = Ok (map g entries).
Proof.
  intros Hf. induction entries as [|e es IH]; simpl; [done|].
  by rewrite Hf, IH.
Qed.

Lemma summarize_entries response entries :
  lookup_item "organic" response = Some (PList (map PDict entries)) ->
  TravelPlanner.summarize_search_results (PDict response) =
    Ok (join nl (map block (take 5 entries))).
Proof.
  intros Ho. unfold TravelPlanner.summarize_search_results, get.
  rewrite Ho. cbn [default from_option id mbind result_bind rbind slice_to iter].
  rewrite firstn_map.
  rewrite (for_each_entries _ block); [done|].
  intros e. unfold block, field. cbn [mbind result_bind rbind mret result_ret].
  by destruct (lookup_item "title" e), (lookup_item "link" e), (lookup_item "snippet" e).
Qed.

Lemma summarize_absent response :
  lookup_item "organic" response = None ->
  TravelPlanner.summarize_search_results (PDict response) = Ok EmptyString.
Proof.
  intros Ho. unfold TravelPlanner.summarize_search_results, get. by rewrite Ho.
Qed.

Lemma summarize_same search_results :
  App.summarize_search_results search_results =
  TravelPlanner.summarize_search_results search_results.
Proof. reflexivity. Qed.

End Summarizer.

(** ** The prompt *)

Section Prompt.

Lemma format_prompt destination duration preferences search_summary :
  ChatPromptTemplate_format TravelPlanner.prompt_template
    (prompt_kwargs destination duration preferences search_summary) =
  Ok (rendered_prompt destination duration preferences search_summary).
Proof. reflexivity. Qed.

Lemma build_itinerary_run {S} w llm destination duration preferences search_summary (s : S) :
  TravelPlanner.build_itinerary w llm destination duration preferences search_summary s =
    (let prompt := rendered_prompt destination duration preferences search_summary in
     ([LlmInvoke llm prompt], s, of_result (llm_invoke w llm prompt))).
Proof.
  unfold TravelPlanner.build_itinerary.
  fold (prompt_kwargs destination duration preferences search_summary).
  rewrite format_prompt. run.
  by destruct (llm_invoke w llm _).
Qed.

Lemma app_build_itinerary_same w llm destination duration preferences search_summary c :
  App.build_itinerary w llm destination duration preferences search_summary c =
  TravelPlanner.build_itinerary w llm destination duration preferences search_summary c.
Proof. reflexivity. Qed.

Lemma append_assoc (a b c : string) : (a +:+ b) +:+ c = a +:+ b +:+ c.
Proof.
  induction a as [|x a IH]; [done|].
  change (String x ((a +:+ b) +:+ c) = String x (a +:+ b +:+ c)). by rewrite IH.
Qed.

Lemma occurs_in_contains_char c sub s :
  occurs_in sub s -> contains_char c sub = true -> contains_char c s = true.
Proof.
  intros (pre & post & ->) H.
  by rewrite !contains_char_app, H, orb_true_r.
Qed.

Lemma str_of_uint_no_brace d : contains_char "{" (NilEmpty.string_of_uint d) = false.
Proof. induction d; cbn; done. Qed.

Lemma str_of_int_no_brace z : contains_char "{" (str_of_int z) = false.
Proof.
  unfold str_of_int, NilZero.string_of_int, NilZero.string_of_uint.
  destruct (Z.to_int z) as [d|d]; destruct d; 
    try done; cbn; apply str_of_uint_no_brace.
Qed.

(** The prompt has an opening brace only where a value brings one. *)
Lemma rendered_prompt_braces destination duration preferences search_summary :
  contains_char "{" (rendered_prompt destination duration preferences search_summary) =
  contains_char "{" destination || contains_char "{" preferences ||
  contains_char "{" search_summary.
Proof.
  unfold rendered_prompt.
  rewrite !contains_char_app, str_of_int_no_brace.
  cbn. by rewrite !orb_false_r, orb_assoc.
Qed.

Lemma occurs_in_head sub post : occurs_in sub (sub +:+ post).
Proof. by exists EmptyString, post. Qed.

Lemma occurs_in_tail sub pre s : occurs_in sub s -> occurs_in sub (pre +:+ s).
Proof.
  intros (a & b & ->). exists (pre +:+ a), b. by rewrite append_assoc.
Qed.

Lemma rendered_prompt_values destination duration preferences search_summary :
  let prompt := rendered_prompt destination duration preferences search_summary in
  occurs_in destination prompt /\ occurs_in (str_of_int duration) prompt /\
  occurs_in preferences prompt /\ occurs_in search_summary prompt.
Proof.
  cbv zeta. unfold rendered_prompt. repeat split.
  - do 3 apply occurs_in_tail. apply occurs_in_head.
  - apply occurs_in_tail, occurs_in_head.
  - do 5 apply occurs_in_tail. apply occurs_in_head.
  - do 10 apply occurs_in_tail. apply occurs_in_head.
Qed.

Lemma placeholder_brace tok : In tok placeholders -> contains_char "{" tok = true.
Proof. intros [<-|[<-|[<-|[<-|[]]]]]; reflexivity. Qed.

End Prompt.

(** ** Input of the form "X, N days" *)

Section PlaceAndDays.

Lemma append_cons c (s t : string) : String c s +:+ t = String c (s +:+ t).
Proof. reflexivity. Qed.

Lemma after_first_comma_app x r :
  contains_char comma x = false -> after_first_comma (x +:+ String comma r) = Some r.
Proof.
  induction x as [|c x IH]; [done|].
  rewrite append_cons. cbn [contains_char after_first_comma].
  intros [Hc Hx]%orb_false_iff. rewrite Ascii.eqb_sym in Hc. rewrite Hc. auto.
Qed.

Lemma up_to_comma_app x r :
  contains_char comma x = false -> up_to_comma (x +:+ String comma r) = x.
Proof.
  induction x as [|c x IH]; [done|].
  rewrite append_cons. cbn [contains_char up_to_comma].
  intros [Hc Hx]%orb_false_iff. rewrite Ascii.eqb_sym in Hc. rewrite Hc.
  by rewrite (IH Hx).
Qed.

Lemma up_to_comma_no_comma s : contains_char comma s = false -> up_to_comma s = s.
Proof.
  induction s as [|c s IH]; [done|]. cbn [contains_char up_to_comma].
  intros [Hc Hs]%orb_false_iff. rewrite Ascii.eqb_sym in Hc. rewrite Hc.
  by rewrite (IH Hs).
Qed.

Lemma take_token_digits n c r :
  all_digits n = true -> isspace c = true -> take_token (n +:+ String c r) = n.
Proof.
  intros Hn Hc. induction n as [|d n IH].
  - change (take_token (String c r) = EmptyString). cbn [take_token]. by rewrite Hc.
  - apply all_digits_cons in Hn as [Hd Hn].
    rewrite append_cons. cbn [take_token].
    by rewrite (digit_not_space d Hd), (IH Hn).
Qed.

Lemma first_token_digits n c r :
  decimal_token n = true -> isspace c = true ->
  first_token (String " " (n +:+ String c r)) = Some n.
Proof.
  intros [Hne Hn]%andb_true_iff Hc. unfold first_token. cbn [lstrip].
  change (isspace " ") with true. cbv iota.
  destruct n as [|d n]; [done|].
  apply all_digits_cons in Hn as [Hd Hn].
  rewrite append_cons. cbn [lstrip]. rewrite (digit_not_space d Hd).
  by rewrite (take_token_digits n c r Hn Hc).
Qed.

Lemma parse_place_and_days x n :
  contains_char comma x = false ->
  decimal_token n = true ->
  (String.length n <= int_max_str_digits)%nat ->
  parse_input (x +:+ ", " +:+ n +:+ " days") = Ok (strip x, decimal_value n).
Proof.
  intros Hx Hn Hlen.
  change (x +:+ ", " +:+ n +:+ " days")
    with (x +:+ String comma (String " " (n +:+ String " " "days"))).
  rewrite parse_input_unfold, (after_first_comma_app _ _ Hx), (up_to_comma_app _ _ Hx).
  pose proof Hn as [_ Hd]%andb_true_iff.
  rewrite up_to_comma_no_comma.
  - rewrite (first_token_digits n " " "days" Hn eq_refl).
    by rewrite (int_decimal_token n Hn Hlen).
  - change (String " " (n +:+ String " " "days")) with (" " +:+ n +:+ " days").
    by rewrite !contains_char_app, (all_digits_no_comma n Hd).
Qed.

Lemma digit_value_zero c : digit_value c = Some 0 -> Ascii.eqb c "0" = true.
Proof.
  destruct c as [[] [] [] [] [] [] [] []]; vm_compute; congruence.
Qed.

Lemma decimal_from_positive s acc : 1 <= acc -> 1 <= decimal_from acc s.
Proof. intros H. etrans; [done|]. apply decimal_from_mono. lia. Qed.

Lemma decimal_value_positive s :
  all_digits s = true -> (1 <= decimal_value s <-> all_zeros s = false).
Proof.
  unfold decimal_value. induction s as [|c r IH]; [cbn; intros _; split; [lia|done]|].
  intros [[d Hd] Hr]%all_digits_cons. cbn [decimal_from all_zeros]. rewrite Hd. cbn [default from_option id].
  pose proof (digit_value_range c d Hd).
  destruct (decide (d = 0)) as [->|Hnz].
  - rewrite (digit_value_zero c Hd). cbn [andb]. change (10 * 0 + 0) with 0. by apply IH.
  - destruct (Ascii.eqb_spec c "0") as [->|_].
    + vm_compute in Hd. congruence.
    + cbn [andb]. split; [done|]. intros _. apply decimal_from_positive. lia.
Qed.

End PlaceAndDays.

(** ** Stages of a run *)

Ltac no_llm_leaf :=
  repeat split;
  [ cbn; lia
  | cbn; lia
  | let H := fresh in intros ? ? H; cbn in H; intuition discriminate
  | let H := fresh in intros H; exfalso; revert H; lazy; discriminate ].

Ltac llm_called place n sr summary :=
  let H := fresh in
  intros ? ? H; cbn in H;
  repeat (destruct H as [H|H]; try discriminate H); [|done];
  injection H as <- <-;
  eexists place, n, _, _, sr, summary, _;
  repeat split; first [eassumption | done | reflexivity].

Section Stages.
Context {S : Type} (w : world).

Lemma main_stages d p (s : S) t s' o :
  TravelPlanner.main w d p s = (t, s', o) -> console_staged w d p s t o.
Proof.
  unfold TravelPlanner.main. rewrite parse_place, parse_days.
  destruct (parse_input d) as [[place n]|e] eqn:Hp.
  2:{ run. rewrite (parse_input_raises _ _ Hp). run. intros [= <- <- <-]. no_llm_leaf. }
  rewrite <- (parse_input_place _ _ _ Hp).
  run. fold (search_query place n p).
  pose proof (tp_search_run w (search_query place n p) s) as Hs.
  destruct (TravelPlanner.serper_search w (search_query place n p) s) as [[ts s1] o1].
  injection Hs as -> -> Ho1.
  destruct o1 as [sr|e|]; run.
  3:{ intros [= <- <- <-]. no_llm_leaf. }
  2:{ destruct (caught e); run; intros [= <- <- <-]; no_llm_leaf. }
  assert (Hs : TravelPlanner.serper_search w (search_query place n p) s =
                ([search_call w (search_query place n p)], s, Done sr))
    by (by rewrite tp_search_run, <- Ho1).
  clear Ho1.
  destruct (contains "error" sr) as [[|]|e] eqn:Hc; run.
  3:{ destruct (caught e); run; intros [= <- <- <-]; no_llm_leaf. }
  1:{ destruct (getitem sr "error") as [err|e]; run;
        [|destruct (caught e); run]; intros [= <- <- <-]; no_llm_leaf. }
  destruct (TravelPlanner.summarize_search_results sr) as [summary|e] eqn:Hsum; run.
  2:{ destruct (caught e); run; intros [= <- <- <-]; no_llm_leaf. }
  destruct summary as [|c0 summary]; cbn [is_empty]; run.
  1:{ intros [= <- <- <-]. no_llm_leaf. }
  rewrite build_itinerary_run. run.
  fold (default_llm w).
  set (summary' := String c0 summary) in *.
  set (prompt := rendered_prompt place n p summary').
  destruct (llm_invoke w (default_llm w) prompt) as [itinerary|e] eqn:Hllm; cbn [of_result]; run.
  2:{ destruct (caught e); run; intros [= <- <- <-];
        (repeat split;
         [ cbn; lia | cbn; lia | llm_called place n sr summary'
         | let H := fresh in intros H; exfalso; revert H; lazy; discriminate ]). }
  intros [= <- <- <-].
  repeat split; [cbn; lia | cbn; lia | llm_called place n sr summary' |].
  intros _.
  eexists place, n, _, (default_llm w), prompt, itinerary.
  repeat split; [done | | done | | ].
  2: by instantiate (1 := console_header ++ console_progress place n p ++
                      [search_call w (search_query place n p); Print generating;
                       LlmInvoke (default_llm w) prompt]).
  - cbn. auto 10.
  - reflexivity.
Qed.
End Stages.

Section WebStages.
Context (w : world).

Lemma app_search_events q (c : cache) :
  exists ts c1 o1,
    App.serper_search w q c = (ts, c1, o1) /\ (ts = [] \/ ts = [search_call w q]).
Proof.
  rewrite app_search_body_eq, tp_search_run.
  destruct (c !! q); [by eauto 6|].
  unfold stored. by repeat case_match; eauto 6.
Qed.

Lemma form_stages b d p (c : cache) t c' o :
  App.form_submission w b d p c = (t, c', o) -> web_staged w d p c t o.
Proof.
  unfold App.form_submission.
  destruct (b && negb (is_empty d)).
  2:{ intros [= <- <- <-]. no_llm_leaf. }
  rewrite parse_place, parse_days.
  destruct (parse_input d) as [[place n]|e] eqn:Hp.
  2:{ run. rewrite (parse_input_raises _ _ Hp). run. intros [= <- <- <-]. no_llm_leaf. }
  rewrite <- (parse_input_place _ _ _ Hp).
  run. fold (search_query place n p).
  destruct (app_search_events (search_query place n p) c) as (ts & c1 & o1 & Hs & Hts).
  rewrite Hs.
  destruct o1 as [sr|e|]; run.
  3:{ intros [= <- <- <-]. destruct Hts as [-> | ->]; no_llm_leaf. }
  2:{ destruct (caught e); run; intros [= <- <- <-]; destruct Hts as [-> | ->]; no_llm_leaf. }
  destruct (contains "error" sr) as [[|]|e] eqn:Hc; run.
  3:{ destruct (caught e); run; intros [= <- <- <-]; destruct Hts as [-> | ->]; no_llm_leaf. }
  1:{ destruct (getitem sr "error") as [err|e]; run;
        [|destruct (caught e); run]; intros [= <- <- <-];
        destruct Hts as [-> | ->]; no_llm_leaf. }
  change (TravelPlanner.summarize_search_results sr)
    with (App.summarize_search_results sr).
  destruct (App.summarize_search_results sr) as [summary|e] eqn:Hsum; run.
  2:{ destruct (caught e); run; intros [= <- <- <-]; destruct Hts as [-> | ->]; no_llm_leaf. }
  destruct summary as [|c0 summary]; cbn [is_empty]; run.
  1:{ intros [= <- <- <-]. destruct Hts as [-> | ->]; no_llm_leaf. }
  rewrite app_build_itinerary_same, build_itinerary_run. run.
  fold (default_llm w).
  set (summary' := String c0 summary) in *.
  set (prompt := rendered_prompt place n p summary').
  destruct (llm_invoke w (default_llm w) prompt) as [itinerary|e] eqn:Hllm; cbn [of_result]; run.
  2:{ destruct (caught e); run; intros [= <- <- <-]; destruct Hts as [-> | ->];
        (repeat split;
         [ cbn; lia | cbn; lia | llm_called place n sr summary'
         | let H := fresh in intros H; exfalso; revert H; lazy; discriminate ]). }
  intros [= <- <- <-].
  repeat split.
  - destruct Hts as [-> | ->]; cbn; lia.
  - destruct Hts as [-> | ->]; cbn; lia.
  - destruct Hts as [-> | ->]; llm_called place n sr summary'.
  - intros _.
    exists place, n, (web_progress place n ++ ts ++ [LlmInvoke (default_llm w) prompt]),
      (default_llm w), prompt, itinerary.
    repeat split; [done | | done | | ].
    + rewrite !in_app_iff. cbn. auto.
    + by rewrite <- !app_assoc.
    + destruct Hts as [-> | ->]; reflexivity.
Qed.

End WebStages.

(** ** The token that is read as the day count *)

Section DayToken.

Lemma scan_digits_no_comma s b acc cnt x :
  scan_digits b acc cnt s = Some x -> contains_char comma s = false.
Proof.
  revert b acc cnt. induction s as [|c r IH]; intros b acc cnt; [done|].
  cbn [scan_digits contains_char].
  destruct (Ascii.eqb_spec c underscore) as [->|_].
  - destruct b; [done|]. intros H. by rewrite (IH _ _ _ H).
  - destruct (digit_value c) as [v|] eqn:Hv; [|done].
    intros H. rewrite (IH _ _ _ H), orb_false_r.
    destruct (Ascii.eqb_spec comma c) as [<-|]; [|done].
    vm_compute in Hv. congruence.
Qed.

Lemma parse_digits_no_comma s x :
  parse_digits s = Some x -> contains_char comma s = false.
Proof.
  destruct s as [|c r]; [done|]. unfold parse_digits.
  destruct (Ascii.eqb c underscore); [done|]. apply scan_digits_no_comma.
Qed.

Lemma int_ok_no_comma t n :
  no_space t = true -> int t = Ok n -> contains_char comma t = false.
Proof.
  intros Ht. unfold int. rewrite (strip_no_space t Ht).
  destruct t as [|c r]; [done|].
  destruct (Ascii.eqb_spec c "+") as [->|_];
    [|destruct (Ascii.eqb_spec c "-") as [->|_]].
  - destruct (parse_digits r) as [[v k]|] eqn:Hr; [|done].
    intros _. cbn [contains_char]. by rewrite (parse_digits_no_comma _ _ Hr).
  - destruct (parse_digits r) as [[v k]|] eqn:Hr; [|done].
    intros _. cbn [contains_char]. by rewrite (parse_digits_no_comma _ _ Hr).
  - destruct (parse_digits (String c r)) as [[v k]|] eqn:Hr; [|done].
    intros _. by rewrite (parse_digits_no_comma _ _ Hr).
Qed.

Lemma lstrip_up_to_comma s : lstrip (up_to_comma s) = up_to_comma (lstrip s).
Proof.
  induction s as [|c r IH]; [done|]. cbn [up_to_comma lstrip].
  destruct (Ascii.eqb c comma) eqn:Hc.
  - rewrite (eqb_comma_space c Hc). cbn [up_to_comma]. by rewrite Hc.
  - cbn [lstrip]. destruct (isspace c); [done|]. cbn [up_to_comma]. by rewrite Hc.
Qed.

Lemma take_token_up_to_comma s :
  contains_char comma (take_token s) = false ->
  take_token (up_to_comma s) = take_token s.
Proof.
  induction s as [|c r IH]; [done|]. cbn [up_to_comma take_token].
  destruct (isspace c) eqn:Hs.
  - intros _. destruct (Ascii.eqb c comma); [done|]. cbn [take_token]. by rewrite Hs.
  - cbn [contains_char]. intros [Hc Hr]%orb_false_iff.
    rewrite Ascii.eqb_sym in Hc. rewrite Hc. cbn [take_token]. by rewrite Hs, (IH Hr).
Qed.

Lemma first_token_up_to_comma s t :
  first_token s = Some t -> contains_char comma t = false ->
  first_token (up_to_comma s) = Some t.
Proof.
  unfold first_token. rewrite lstrip_up_to_comma.
  destruct (lstrip s) as [|c r]; [done|].
  intros [= <-]. cbn [contains_char up_to_comma].
  intros [Hc Hr]%orb_false_iff. rewrite Ascii.eqb_sym in Hc. rewrite Hc.
  by rewrite (take_token_up_to_comma r Hr).
Qed.

Lemma leading_int_up_to_comma s n :
  leading_int s = Some n -> leading_int (up_to_comma s) = Some n.
Proof.
  unfold leading_int.
  destruct (first_token s) as [t|] eqn:Ht; [|done].
  destruct (int t) as [k|] eqn:Hk; [|done]. intros [= ->].
  rewrite (first_token_up_to_comma s t Ht).
  - by rewrite Hk.
  - eapply int_ok_no_comma; [|done]. by eapply first_token_no_space.
Qed.

(** When the parser returns and when it raises. *)
Lemma parse_input_leading_int d :
  parse_input d =
  match after_first_comma d with
  | None => Raise IndexError
  | Some r =>
      match leading_int (up_to_comma r) with
      | Some n => Ok (strip (up_to_comma d), n)
      | None =>
          Raise (if bool_decide (first_token (up_to_comma r) = None)
                 then IndexError else ValueError)
      end
  end.
Proof.
  rewrite parse_input_unfold. unfold leading_int.
  destruct (after_first_comma d) as [r|]; [|done].
  destruct (first_token (up_to_comma r)) as [t|]; [|done].
  destruct (int t) as [n|e] eqn:Hi; [done|].
  by rewrite (int_raises _ _ Hi).
Qed.

End DayToken.

(** * The claims *)

(** C1 (as amended). For every input "X, N days" with X free of commas and N
    a run of at most 4300 decimal digits, the parser yields the place X with
    the whitespace around it removed and the day count N. The day count is
    not negative; it is at least 1 exactly when N is not a run of zeros. *)
Theorem C1_place_and_days (x n : string) :
  contains_char comma x = false ->
  decimal_token n = true ->
  (String.length n <= int_max_str_digits)%nat ->
  parse_input (x +:+ ", " +:+ n +:+ " days") = Ok (strip x, decimal_value n) /\
  0 <= decimal_value n /\
  (1 <= decimal_value n <-> all_zeros n = false).
Proof.
  intros Hx Hn Hlen. split; [by apply parse_place_and_days|].
  split; [apply decimal_value_nonneg|].
  apply decimal_value_positive. by apply andb_true_iff in Hn as [_ ?].
Qed.

Lemma C1_place_and_days_witness :
  parse_input (" Ooty " +:+ ", " +:+ "4" +:+ " days") = Ok ("Ooty", 4) /\
  0 <= 4 /\
  (1 <= 4 <-> all_zeros "4" = false).
Proof.
  apply (C1_place_and_days " Ooty " "4");
    [reflexivity | reflexivity | vm_compute; lia].
Defined.

(** C1 as stated fails: "Paris, 0 days" has the required form, and the parser
    yields a day count that is not at least 1. *)
Lemma C1_zero_days :
  contains_char comma "Paris" = false /\
  decimal_token "0" = true /\
  exists days,
    parse_input ("Paris" +:+ ", " +:+ "0" +:+ " days") = Ok (strip "Paris", days) /\
    days = decimal_value "0" /\
    ~ (1 <= days).
Proof.
  split; [reflexivity|]. split; [reflexivity|].
  exists 0. split; [reflexivity|]. split; [reflexivity|lia].
Qed.

(** C2 (as amended). When the input has no comma, or the text between its
    first comma and the next one (or the end) has no leading integer, the
    console prints the fixed message and nothing else after its prompts, and
    the page shows the fixed message when the field is not empty and nothing
    at all when it is empty. Neither run contains a search call or a
    generation call, and the store of cached searches is left as it was. *)
Theorem C2_invalid_input (w : world) (d p : string) (c : cache) :
  (after_first_comma d = None \/
   exists r, after_first_comma d = Some r /\ leading_int (up_to_comma r) = None) ->
  TravelPlanner.main w d p tt = (console_header ++ [Print invalid_format], tt, Done tt) /\
  App.form_submission w true d p c =
    (if is_empty d then [] else [StError invalid_format], c, Done tt).
Proof.
  intros H.
  assert (exists e, parse_input d = Raise e) as [e He].
  { rewrite parse_input_leading_int.
    destruct H as [-> | (r & -> & ->)]; eauto. }
  split; [by eapply main_invalid|].
  destruct d as [|a d'].
  - apply form_idle. by right.
  - by eapply form_invalid.
Qed.

Lemma C2_invalid_input_witness :
  TravelPlanner.main (answering (response_ok (PDict sample_results))) "Chennai" "food" tt =
    (console_header ++ [Print invalid_format], tt, Done tt) /\
  App.form_submission (answering (response_ok (PDict sample_results))) true "Chennai" "food" ∅ =
    ([StError invalid_format], ∅, Done tt).
Proof.
  apply (C2_invalid_input (answering (response_ok (PDict sample_results))) "Chennai" "food" ∅).
  left. reflexivity.
Defined.

(** C2 as stated fails twice. The empty field has no comma, and the page shows
    nothing for it. In "Goa, 2,5 days" the text after the first comma starts
    with the token "2,5", which is no integer, and the console goes on to the
    search with 2 days. *)
Lemma C2_silent_or_searching :
  let w := answering (response_ok (PDict sample_results)) in
  (after_first_comma EmptyString = None /\
   App.form_submission w true EmptyString "food" ∅ = ([], ∅, Done tt)) /\
  (after_first_comma "Goa, 2,5 days" = Some " 2,5 days" /\
   first_token " 2,5 days" = Some "2,5" /\
   leading_int " 2,5 days" = None /\
   parse_input "Goa, 2,5 days" = Ok ("Goa", 2) /\
   In (search_call w (search_query "Goa" 2 "food"))
      (TravelPlanner.main w "Goa, 2,5 days" "food" tt).1.1).
Proof.
  cbv zeta. repeat split; try reflexivity.
  vm_compute. auto 10.
Qed.

(** C3. For a search response whose "organic" list holds k entries, the
    summarizer of either front end returns the blocks of the first 5 entries
    (of all k when k < 5) joined by newlines. A block is the three lines
    Title, URL and Summary and the delimiter line, with "N/A" for a field the
    entry does not have. *)
Theorem C3_summary_blocks (response : list (string * pyval))
    (entries : list (list (string * pyval))) :
  lookup_item "organic" response = Some (PList (map PDict entries)) ->
  let blocks := map block (take 5 entries) in
  TravelPlanner.summarize_search_results (PDict response) = Ok (join nl blocks) /\
  App.summarize_search_results (PDict response) = Ok (join nl blocks) /\
  length blocks = Nat.min 5 (length entries) /\
  ((length entries < 5)%nat -> length blocks = length entries) /\
  ((5 <= length entries)%nat -> length blocks = 5%nat).
Proof.
  intros Ho blocks.
  assert (length blocks = Nat.min 5 (length entries)) as Hlen
    by (unfold blocks; by rewrite length_map, length_take).
  pose proof (summarize_entries response entries Ho) as Hsum.
  repeat split; [exact Hsum | by rewrite summarize_same | done | lia | lia].
Qed.

Lemma C3_summary_blocks_witness :
  TravelPlanner.summarize_search_results (PDict sample_results) =
    Ok ("Title: Ooty Lake" +:+ nl +:+ "URL: https://example.org/lake" +:+ nl +:+
        "Summary: Boating on the lake." +:+ nl +:+ "---" +:+ nl +:+
        "Title: Tea Museum" +:+ nl +:+ "URL: N/A" +:+ nl +:+
        "Summary: N/A" +:+ nl +:+ "---").
Proof.
  apply (C3_summary_blocks sample_results sample_entries). reflexivity.
Defined.

(** C4 (as amended). For a search response whose "organic" list is empty or
    absent the summarizer returns the empty string. When such a response has
    no "error" key, the request ends with the "try a different query" warning
    right after the search, and no generation call is made. *)
Theorem C4_empty_results (response : list (string * pyval)) :
  (lookup_item "organic" response = None \/
   lookup_item "organic" response = Some (PList [])) ->
  TravelPlanner.summarize_search_results (PDict response) = Ok EmptyString /\
  App.summarize_search_results (PDict response) = Ok EmptyString /\
  forall (w : world) (d p place : string) (n : Z) (resp : Response) (c : cache),
    lookup_item "error" response = None ->
    parse_input d = Ok (place, n) ->
    search_response w (search_query place n p) = Ok resp ->
    status_code resp = 200 ->
    json resp = Ok (PDict response) ->
    TravelPlanner.main w d p tt =
      (console_header ++ console_progress place n p ++
       [search_call w (search_query place n p); Print try_different_query],
       tt, Done tt) /\
    (c !! search_query place n p = None ->
     App.form_submission w true d p c =
       (web_progress place n ++
        [search_call w (search_query place n p); StWarning try_different_query],
        <[search_query place n p := PDict response]> c, Stopped)).
Proof.
  intros Ho.
  assert (TravelPlanner.summarize_search_results (PDict response) = Ok EmptyString) as Hsum.
  { destruct Ho as [Ho|Ho]; [by apply summarize_absent|].
    by rewrite (summarize_entries response [] Ho). }
  split; [done|]. split; [by rewrite summarize_same|].
  intros w d p place n resp c He Hp H1 H2 H3. split.
  - apply (main_empty_summary w d p tt place n
             [search_call w (search_query place n p)] tt response); [done| |done|done].
    by rewrite tp_search_run, H1, H2, H3.
  - intros Hmiss.
    apply (form_empty_summary w d p c place n
             [search_call w (search_query place n p)]
             (<[search_query place n p := PDict response]> c) response); [done| |done|done].
    by rewrite app_search_body_eq, Hmiss, tp_search_run, H1, H2, H3.
Qed.

Lemma C4_empty_results_witness :
  let w := answering (response_ok (PDict [("organic", PList [])])) in
  App.form_submission w true "Ooty, 4 days" "solo travel" ∅ =
    (web_progress "Ooty" 4 ++
     [search_call w (search_query "Ooty" 4 "solo travel"); StWarning try_different_query],
     {[search_query "Ooty" 4 "solo travel" := PDict [("organic", PList [])]]}, Stopped).
Proof.
  cbv zeta.
  refine (proj2 (proj2 (proj2 (C4_empty_results [("organic", PList [])] (or_intror eq_refl)))
    (answering (response_ok (PDict [("organic", PList [])])))
    "Ooty, 4 days" "solo travel" "Ooty" 4
    (response_ok (PDict [("organic", PList [])])) ∅
    eq_refl eq_refl eq_refl eq_refl eq_refl) eq_refl).
Defined.

(** C4 as stated fails: the record returned for a response with status 403
    has no "organic" list, the summarizer returns the empty string for it, and
    the request ends with the search error, not with the warning. *)
Lemma C4_error_before_warning :
  let w := answering (response_failed 403 "Unauthorized.") in
  lookup_item "organic" [("error", PStr "Unauthorized.")] = None /\
  TravelPlanner.serper_search w (search_query "Ooty" 4 "solo travel") tt =
    ([search_call w (search_query "Ooty" 4 "solo travel")], tt,
     Done (PDict [("error", PStr "Unauthorized.")])) /\
  TravelPlanner.summarize_search_results (PDict [("error", PStr "Unauthorized.")]) =
    Ok EmptyString /\
  TravelPlanner.main w "Ooty, 4 days" "solo travel" tt =
    (console_header ++ console_progress "Ooty" 4 "solo travel" ++
     [search_call w (search_query "Ooty" 4 "solo travel");
      Print "Error during search: Unauthorized."],
     tt, Done tt) /\
  ~ In (Print try_different_query)
       (TravelPlanner.main w "Ooty, 4 days" "solo travel" tt).1.1.
Proof.
  cbv zeta. repeat split; try reflexivity.
  vm_compute. intuition discriminate.
Qed.

(** C5 (as amended). For every place, day count, preferences and summary the
    itinerary generator of either front end sends one prompt, the template
    with the four values in the place of its four replacement fields. The
    prompt contains each of the four values verbatim. It has an opening brace
    only if one of the three text values has one: a replacement field of the
    template never stays, and text of that shape is in the prompt only when a
    value brought it. *)
Theorem C5_rendered_prompt (w : world) (llm : ChatGroq) (place : string) (days : Z)
    (preferences summary : string) (c : cache) :
  let prompt := rendered_prompt place days preferences summary in
  TravelPlanner.build_itinerary w llm place days preferences summary tt =
    ([LlmInvoke llm prompt], tt, of_result (llm_invoke w llm prompt)) /\
  App.build_itinerary w llm place days preferences summary c =
    ([LlmInvoke llm prompt], c, of_result (llm_invoke w llm prompt)) /\
  occurs_in place prompt /\
  occurs_in (str_of_int days) prompt /\
  occurs_in preferences prompt /\
  occurs_in summary prompt /\
  contains_char "{" prompt =
    contains_char "{" place || contains_char "{" preferences || contains_char "{" summary /\
  (forall field, In field placeholders -> occurs_in field prompt ->
     contains_char "{" place || contains_char "{" preferences ||
     contains_char "{" summary = true).
Proof.
  intros prompt.
  destruct (rendered_prompt_values place days preferences summary) as (H1 & H2 & H3 & H4).
  repeat split; try done.
  - apply build_itinerary_run.
  - rewrite app_build_itinerary_same. apply build_itinerary_run.
  - apply rendered_prompt_braces.
  - intros field Hf Ho.
    rewrite <- (rendered_prompt_braces place days preferences summary).
    eapply occurs_in_contains_char; [done|]. by apply placeholder_brace.
Qed.

Lemma C5_rendered_prompt_witness :
  ~ occurs_in "{destination}" (rendered_prompt "Ooty" 4 "solo travel, budget-friendly" "Title: Ooty Lake").
Proof.
  intros H.
  pose proof (proj2 (proj2 (proj2 (proj2 (proj2 (proj2 (proj2
    (C5_rendered_prompt (answering (response_ok PNone)) (default_llm (answering (response_ok PNone)))
       "Ooty" 4 "solo travel, budget-friendly" "Title: Ooty Lake" ∅)))))))
    "{destination}" (or_intror (or_introl eq_refl)) H) as Hb.
  vm_compute in Hb. discriminate Hb.
Defined.

(** C5 as stated fails: preferences that spell a replacement field are
    substituted as they are, and the prompt then contains that text. *)
Lemma C5_placeholder_in_value :
  In "{destination}" placeholders /\
  occurs_in "{destination}" (rendered_prompt "Ooty" 4 "{destination}" "Title: Ooty Lake") /\
  TravelPlanner.build_itinerary (answering (response_ok PNone))
      (default_llm (answering (response_ok PNone))) "Ooty" 4 "{destination}" "Title: Ooty Lake" tt =
    ([LlmInvoke (default_llm (answering (response_ok PNone)))
        (rendered_prompt "Ooty" 4 "{destination}" "Title: Ooty Lake")],
     tt, Done "Day 1: the lake.").
Proof.
  split; [cbn; auto|]. split; [|reflexivity].
  apply (rendered_prompt_values "Ooty" 4 "{destination}" "Title: Ooty Lake").
Qed.

(** C6. The search client makes one request. When the response has status 200
    it returns what the body decodes to (and fails as the decoding fails);
    for any other status it returns the record that holds the raw body text
    under "error". On the page a request is made for a query that is not in
    the store, and the value returned is stored. After a status other than
    200 the request ends with "Error during search: " followed by that text,
    and no generation call is made. *)
Theorem C6_search_client (w : world) (q : string) (resp : Response) (c : cache) :
  search_response w q = Ok resp ->
  (status_code resp = 200 ->
   TravelPlanner.serper_search w q tt = ([search_call w q], tt, of_result (json resp)) /\
   (c !! q = None ->
    App.serper_search w q c = stored q ([search_call w q], c, of_result (json resp)))) /\
  (status_code resp <> 200 ->
   TravelPlanner.serper_search w q tt =
     ([search_call w q], tt, Done (error_record (text resp))) /\
   (c !! q = None ->
    App.serper_search w q c =
      ([search_call w q], <[q := error_record (text resp)]> c,
       Done (error_record (text resp)))) /\
   forall d p place n,
     parse_input d = Ok (place, n) ->
     q = search_query place n p ->
     TravelPlanner.main w d p tt =
       (console_header ++ console_progress place n p ++
        [search_call w q; Print ("Error during search: " +:+ text resp)], tt, Done tt) /\
     (c !! q = None ->
      App.form_submission w true d p c =
        (web_progress place n ++
         [search_call w q; StError ("Error during search: " +:+ text resp)],
         <[q := error_record (text resp)]> c, Stopped))).
Proof.
  intros Hr. split.
  - intros H200. split.
    + by rewrite tp_search_run, Hr, H200.
    + intros Hmiss. by rewrite app_search_body_eq, Hmiss, tp_search_run, Hr, H200.
  - intros Hne.
    assert ((status_code resp =? 200) = false) as Hst by (by apply Z.eqb_neq).
    assert (Htp : forall S (s : S), TravelPlanner.serper_search w q s =
              ([search_call w q], s, Done (error_record (text resp))))
      by (intros; by rewrite tp_search_run, Hr, Hst).
    assert (Happ : c !! q = None -> App.serper_search w q c =
              ([search_call w q], <[q := error_record (text resp)]> c,
               Done (error_record (text resp))))
      by (intros Hmiss; by rewrite app_search_body_eq, Hmiss, Htp).
    split; [apply Htp|]. split; [apply Happ|].
    intros d p place n Hp ->. split.
    + apply (main_error_key w d p tt place n [search_call w (search_query place n p)] tt
               [("error", PStr (text resp))] (PStr (text resp))); [done|apply Htp|done].
    + intros Hmiss.
      apply (form_error_key w d p c place n [search_call w (search_query place n p)]
               (<[search_query place n p := error_record (text resp)]> c)
               [("error", PStr (text resp))] (PStr (text resp))); [done|by apply Happ|done].
Qed.

Lemma C6_search_client_witness :
  let w := answering (response_failed 403 "Unauthorized.") in
  let q := search_query "Ooty" 4 "solo travel" in
  App.form_submission w true "Ooty, 4 days" "solo travel" ∅ =
    (web_progress "Ooty" 4 ++ [search_call w q; StError "Error during search: Unauthorized."],
     {[q := error_record "Unauthorized."]}, Stopped).
Proof.
  cbv zeta.
  refine (proj2 (proj2 (proj2 (proj2
    (C6_search_client (answering (response_failed 403 "Unauthorized."))
       (search_query "Ooty" 4 "solo travel") (response_failed 403 "Unauthorized.") ∅
       eq_refl) _))
    "Ooty, 4 days" "solo travel" "Ooty" 4 eq_refl eq_refl) eq_refl).
  discriminate.
Defined.

(** C7 (as amended). The summarizer and the itinerary generator of the page
    compute what those of the console compute, on every input. The search
    client of the page is the one of the console behind the store of
    [st.cache_data]: for a query that is not in the store it makes the same
    request, returns the same result and stores it when it is a value; for a
    query in the store it returns the stored value and makes no request. *)
Theorem C7_front_ends_agree (w : world) (q : string) (c : cache) :
  (forall search_results,
     App.summarize_search_results search_results =
     TravelPlanner.summarize_search_results search_results) /\
  (forall llm destination duration preferences search_summary,
     App.build_itinerary w llm destination duration preferences search_summary c =
     TravelPlanner.build_itinerary w llm destination duration preferences search_summary c) /\
  App.serper_search w q c =
    match c !! q with
    | None => stored q (TravelPlanner.serper_search w q c)
    | Some v => ([], c, Done v)
    end.
Proof.
  split; [apply summarize_same|]. split; [intros; apply app_build_itinerary_same|].
  rewrite app_search_body_eq. by destruct (c !! q).
Qed.

(** C7 as stated fails: with an earlier answer for the query in the store,
    the search client of the page returns that answer and makes no request,
    while the one of the console asks the provider and returns what it
    answers now. *)
Lemma C7_stored_answer :
  let w := answering (response_ok (PDict sample_results)) in
  let c : cache := {["ooty" := error_record "Unauthorized."]} in
  App.serper_search w "ooty" c = ([], c, Done (error_record "Unauthorized.")) /\
  TravelPlanner.serper_search w "ooty" c =
    ([search_call w "ooty"], c, Done (PDict sample_results)) /\
  (App.serper_search w "ooty" c).2 <> (TravelPlanner.serper_search w "ooty" c).2.
Proof.
  cbv zeta. split; [|split].
  - by rewrite app_search_body_eq.
  - by rewrite tp_search_run.
  - rewrite app_search_body_eq, tp_search_run. discriminate.
Qed.

(** C8. In every run of either front end: at most one search call and at
    most one generation call are made (the parser and the summarizer have no
    effect to count); a generation call is made only after the parser has
    returned, the search has returned a value without an "error" key and the
    summarizer has returned a summary that is not empty, and it comes after
    the events of the search; and an itinerary is shown only as the last
    thing of a run in which the generation call returned it, in full. *)
Theorem C8_stages_in_order (w : world) (d p : string) (b : bool) (c : cache) :
  (let '(t, _, o) := TravelPlanner.main w d p tt in console_staged w d p tt t o) /\
  (let '(t, _, o) := App.form_submission w b d p c in web_staged w d p c t o).
Proof.
  split.
  - destruct (TravelPlanner.main w d p tt) as [[t s'] o] eqn:H.
    by apply (main_stages w d p tt t s' o).
  - destruct (App.form_submission w b d p c) as [[t c'] o] eqn:H.
    by apply (form_stages w b d p c t c' o).
Qed.

Lemma C8_stages_in_order_witness :
  let w := answering (response_ok (PDict sample_results)) in
  exists summary,
    TravelPlanner.summarize_search_results (PDict sample_results) = Ok summary /\
    summary <> EmptyString /\
    In (LlmInvoke (default_llm w) (rendered_prompt "Ooty" 4 "solo travel" summary))
       (TravelPlanner.main w "Ooty, 4 days" "solo travel" tt).1.1.
Proof.
  cbv zeta.
  pose proof (C8_stages_in_order (answering (response_ok (PDict sample_results)))
                "Ooty, 4 days" "solo travel" true ∅) as [H _].
  destruct (TravelPlanner.main (answering (response_ok (PDict sample_results)))
              "Ooty, 4 days" "solo travel" tt) as [[t s'] o] eqn:Hrun.
  destruct H as (_ & _ & H & _).
  vm_compute in Hrun. injection Hrun as <- <- <-.
  edestruct H as (place & n & ts & s1 & sr & summary & post & Hp & Hs & _ & Hsum & Hne & Hprompt & _).
  { cbn. do 7 right. left. reflexivity. }
  vm_compute in Hp. injection Hp as <- <-.
  vm_compute in Hs. injection Hs as <- <- <-.
  exists summary. repeat split; [done..|].
  cbn. do 7 right. left. f_equal. 
  vm_compute in Hsum. injection Hsum as <-. reflexivity.
Defined.

(** C9 (as amended). The word "days" is not required. When the text after the
    first comma leads with an integer, the parser yields that integer whatever
    follows. When the text between the first comma and the next one (or the
    end) does not lead with an integer, the parser raises IndexError or
    ValueError, which the front ends report as invalid input: so an integer
    with other characters attached is rejected, except that a comma ends the
    text that is read. *)
Theorem C9_leading_integer (d r : string) :
  after_first_comma d = Some r ->
  (forall n, leading_int r = Some n -> parse_input d = Ok (strip (up_to_comma d), n)) /\
  (leading_int (up_to_comma r) = None ->
   exists e, parse_input d = Raise e /\ caught e = true) /\
  parse_input "Paris, 3" = Ok ("Paris", 3) /\
  parse_input "Paris, 3 weeks" = Ok ("Paris", 3) /\
  parse_input "Paris, 3days" = Raise ValueError.
Proof.
  intros Hd. rewrite parse_input_leading_int, Hd. repeat split.
  - intros n Hn. by rewrite (leading_int_up_to_comma r n Hn).
  - intros ->. eexists; split; [done|]. by case_bool_decide.
Qed.

Lemma C9_leading_integer_witness :
  parse_input "Paris, 3 nights, then home" = Ok ("Paris", 3) /\
  exists e, parse_input "Paris, three days" = Raise e /\ caught e = true.
Proof.
  split.
  - apply (C9_leading_integer "Paris, 3 nights, then home" " 3 nights, then home");
      reflexivity.
  - apply (C9_leading_integer "Paris, three days" " three days"); reflexivity.
Defined.

(** C9 as stated fails: in "Paris, 3,5 days" the integer 3 is not a
    whitespace-separated token of its own (the token is "3,5", which [int]
    rejects), and the parser accepts the input with 3 days. *)
Lemma C9_comma_ends_token :
  after_first_comma "Paris, 3,5 days" = Some " 3,5 days" /\
  first_token " 3,5 days" = Some "3,5" /\
  int "3,5" = Raise ValueError /\
  parse_input "Paris, 3,5 days" = Ok ("Paris", 3).
Proof. by repeat split. Qed.

(** C10. For a response with status 200 whose body decodes to a mapping with
    an "error" key, the request ends with "Error during search: " followed by
    the value under that key, and no generation call is made. The branch is
    taken on the key: the page takes it as well for such a mapping that comes
    from its store, where no response, and so no status, is involved. *)
Theorem C10_error_key (w : world) (d p place : string) (n : Z) (resp : Response)
    (body : list (string * pyval)) (err : pyval) (c : cache) :
  parse_input d = Ok (place, n) ->
  search_response w (search_query place n p) = Ok resp ->
  status_code resp = 200 ->
  json resp = Ok (PDict body) ->
  lookup_item "error" body = Some err ->
  TravelPlanner.main w d p tt =
    (console_header ++ console_progress place n p ++
     [search_call w (search_query place n p); Print (search_error err)], tt, Done tt) /\
  (c !! search_query place n p = None ->
   App.form_submission w true d p c =
     (web_progress place n ++
      [search_call w (search_query place n p); StError (search_error err)],
      <[search_query place n p := PDict body]> c, Stopped)) /\
  (c !! search_query place n p = Some (PDict body) ->
   App.form_submission w true d p c =
     (web_progress place n ++ [StError (search_error err)], c, Stopped)).
Proof.
  intros Hp Hr H200 Hj He. repeat split.
  - apply (main_error_key w d p tt place n [search_call w (search_query place n p)] tt
             body err); [done| |done].
    by rewrite tp_search_run, Hr, H200, Hj.
  - intros Hmiss.
    apply (form_error_key w d p c place n [search_call w (search_query place n p)]
             (<[search_query place n p := PDict body]> c) body err); [done| |done].
    by rewrite app_search_body_eq, Hmiss, tp_search_run, Hr, H200, Hj.
  - intros Hhit.
    apply (form_error_key w d p c place n [] c body err); [done| |done].
    by rewrite app_search_body_eq, Hhit.
Qed.

Lemma C10_error_key_witness :
  let w := answering (response_ok (PDict [("error", PStr "Not enough credits")])) in
  TravelPlanner.main w "Ooty, 4 days" "solo travel" tt =
    (console_header ++ console_progress "Ooty" 4 "solo travel" ++
     [search_call w (search_query "Ooty" 4 "solo travel");
      Print "Error during search: Not enough credits"], tt, Done tt).
Proof.
  cbv zeta.
  refine (proj1 (C10_error_key
    (answering (response_ok (PDict [("error", PStr "Not enough credits")])))
    "Ooty, 4 days" "solo travel" "Ooty" 4
    (response_ok (PDict [("error", PStr "Not enough credits")]))
    [("error", PStr "Not enough credits")] (PStr "Not enough credits") ∅
    eq_refl eq_refl eq_refl eq_refl eq_refl)).
Defined.

(** * The pipeline as a whole *)

Ltac outline :=
  unfold handled, console_header, console_progress, web_progress,
    console_presentation, web_presentation;
  cbn [fe_header fe_progress fe_generating fe_error fe_warning fe_present fe_halt
       console page];
  rewrite ?app_nil_r;
  repeat (rewrite <- ?app_assoc; cbn [app]);
  try reflexivity.

Ltac outline_caught e := unfold handled; destruct (caught e); run; outline.

Section Pipeline.
Context (w : world).

Lemma main_pipeline {S} d p (s : S) :
  TravelPlanner.main w d p s = pipeline console w (TravelPlanner.serper_search w) d p s.
Proof.
  unfold TravelPlanner.main, pipeline. rewrite parse_place, parse_days.
  destruct (parse_input d) as [[place n]|e] eqn:Hp.
  2:{ run. by rewrite (parse_input_raises _ _ Hp). }
  rewrite <- (parse_input_place _ _ _ Hp).
  run. fold (search_query place n p).
  destruct (TravelPlanner.serper_search w (search_query place n p) s) as [[ts s1] [sr|e|]];
    run; [|outline_caught e|outline].
  destruct (contains "error" sr) as [[|]|e]; run; [| |outline_caught e].
  { destruct (getitem sr "error") as [err|e]; run; [outline|outline_caught e]. }
  destruct (TravelPlanner.summarize_search_results sr) as [summary|e]; run;
    [|outline_caught e].
  destruct summary as [|c0 summary]; cbn [is_empty]; run; [outline|].
  rewrite build_itinerary_run. run. fold (default_llm w).
  destruct (llm_invoke w (default_llm w) _) as [itinerary|e]; cbn [of_result]; run;
    [outline|outline_caught e].
Qed.

Lemma form_pipeline d p (c : cache) :
  App.form_submission w true d p c =
  if is_empty d then ([], c, Done tt)
  else pipeline page w (App.serper_search w) d p c.
Proof.
  unfold App.form_submission, pipeline. cbn [andb].
  destruct (is_empty d) eqn:Hd; [done|]. cbn [negb].
  rewrite parse_place, parse_days.
  destruct (parse_input d) as [[place n]|e] eqn:Hp.
  2:{ run. by rewrite (parse_input_raises _ _ Hp). }
  rewrite <- (parse_input_place _ _ _ Hp).
  run. fold (search_query place n p).
  destruct (App.serper_search w (search_query place n p) c) as [[ts c1] [sr|e|]];
    run; [|outline_caught e|outline].
  destruct (contains "error" sr) as [[|]|e]; run; [| |outline_caught e].
  { destruct (getitem sr "error") as [err|e]; run; [outline|outline_caught e]. }
  change (App.summarize_search_results sr)
    with (TravelPlanner.summarize_search_results sr).
  destruct (TravelPlanner.summarize_search_results sr) as [summary|e]; run;
    [|outline_caught e].
  destruct summary as [|c0 summary]; cbn [is_empty]; run; [outline|].
  rewrite app_build_itinerary_same, build_itinerary_run. run. fold (default_llm w).
  destruct (llm_invoke w (default_llm w) _) as [itinerary|e]; cbn [of_result]; run;
    [outline|outline_caught e].
Qed.

End Pipeline.

Section PipelineFacts.
Context (w : world).

Lemma tp_search_reply {S} q (s : S) :
  TravelPlanner.serper_search w q s = ([search_call w q], s, search_reply w q).
Proof. apply tp_search_run. Qed.

Lemma app_search_reply q (c : cache) :
  c !! q = None ->
  App.serper_search w q c =
    ([search_call w q],
     match search_reply w q with Done v => <[q := v]> c | _ => c end,
     search_reply w q).
Proof.
  intros Hmiss. rewrite app_search_body_eq, Hmiss, tp_search_reply.
  unfold stored. by destruct (search_reply w q).
Qed.

Lemma search_reply_not_stopped q : search_reply w q <> Stopped.
Proof.
  unfold search_reply.
  destruct (search_response w q) as [resp|e]; [|done].
  destruct (status_code resp =? 200); [|done]. by destruct (json resp).
Qed.

(** X1. Both front ends are one decision tree over the parser, the search
    client, the summarizer and the model. They differ in the events they
    show, in how a request that is given up ends, in the page searching
    through its store, and in the page doing nothing when the button is not
    pressed or the field is empty. *)
Theorem X1_one_pipeline (d p : string) (c : cache) :
  TravelPlanner.main w d p tt =
    pipeline console w (TravelPlanner.serper_search w) d p tt /\
  App.form_submission w true d p c =
    (if is_empty d then ([], c, Done tt)
     else pipeline page w (App.serper_search w) d p c) /\
  App.form_submission w false d p c = ([], c, Done tt).
Proof.
  split; [apply main_pipeline|]. split; [apply form_pipeline|done].
Qed.

(** X2. A request whose search succeeds runs to the end: with the input
    parsed, a search value without "error" in it, a summary that is not empty
    and a reply from the model, the console prints its progress lines, makes
    the two calls and prints the banner, the heading and the reply; the page
    shows the spinner text, makes the two calls and renders the rule, the
    heading and the reply, and the search value is in the store afterwards. *)
Theorem X2_successful_request (d p place : string) (n : Z) (sr : pyval)
    (summary itinerary : string) (c : cache) :
  parse_input d = Ok (place, n) ->
  search_reply w (search_query place n p) = Done sr ->
  contains "error" sr = Ok false ->
  TravelPlanner.summarize_search_results sr = Ok summary ->
  summary <> EmptyString ->
  llm_invoke w (default_llm w) (rendered_prompt place n p summary) = Ok itinerary ->
  TravelPlanner.main w d p tt =
    (console_header ++ console_progress place n p ++
     [search_call w (search_query place n p); Print generating;
      LlmInvoke (default_llm w) (rendered_prompt place n p summary)] ++
     console_presentation place n itinerary, tt, Done tt) /\
  (c !! search_query place n p = None ->
   App.form_submission w true d p c =
     (web_progress place n ++
      [search_call w (search_query place n p);
       LlmInvoke (default_llm w) (rendered_prompt place n p summary)] ++
      web_presentation place n itinerary,
      <[search_query place n p := sr]> c, Done tt)).
Proof.
  intros Hp Hs Hc Hsum Hne Hllm. split.
  - rewrite main_pipeline. unfold pipeline.
    rewrite Hp, tp_search_reply, Hs, Hc, Hsum.
    destruct summary; [done|]. cbn [is_empty]. rewrite Hllm. outline.
  - intros Hmiss. rewrite form_pipeline, (parse_input_nonempty _ _ Hp).
    unfold pipeline. rewrite Hp, (app_search_reply _ _ Hmiss), Hs, Hc, Hsum.
    destruct summary; [done|]. cbn [is_empty]. rewrite Hllm. outline.
Qed.

(** X3. An exception raised by the search, be it by the request or by the
    decoding of a body with status 200, ends the request inside the [try]
    block: an IndexError or ValueError (a body that is not JSON raises a
    ValueError) is reported with the invalid-format message, any other
    exception goes up with nothing shown. No generation call is made and the
    store of the page is left as it was. *)
Theorem X3_search_exception (d p place : string) (n : Z) (e : exn) (c : cache) :
  parse_input d = Ok (place, n) ->
  (search_response w (search_query place n p) = Raise e \/
   exists resp, search_response w (search_query place n p) = Ok resp /\
                status_code resp = 200 /\ json resp = Raise e) ->
  TravelPlanner.main w d p tt =
    (console_header ++ console_progress place n p ++
     [search_call w (search_query place n p)] ++
     (if caught e then [Print invalid_format] else []),
     tt, if caught e then Done tt else Failed e) /\
  (c !! search_query place n p = None ->
   App.form_submission w true d p c =
     (web_progress place n ++ [search_call w (search_query place n p)] ++
      (if caught e then [StError invalid_format] else []),
      c, if caught e then Done tt else Failed e)).
Proof.
  intros Hp Hr.
  assert (search_reply w (search_query place n p) = Failed e) as Hs.
  { unfold search_reply. destruct Hr as [-> | (resp & -> & -> & ->)]; done. }
  split.
  - rewrite main_pipeline. unfold pipeline. rewrite Hp, tp_search_reply, Hs.
    outline_caught e.
  - intros Hmiss. rewrite form_pipeline, (parse_input_nonempty _ _ Hp).
    unfold pipeline. rewrite Hp, (app_search_reply _ _ Hmiss), Hs.
    outline_caught e.
Qed.

(** X4. An exception raised by the generation call ends the request the same
    way: an IndexError or ValueError is reported with the invalid-format
    message, any other exception goes up; in neither case is anything of an
    itinerary shown. *)
Theorem X4_generation_exception (d p place : string) (n : Z) (sr : pyval)
    (summary : string) (e : exn) (c : cache) :
  parse_input d = Ok (place, n) ->
  search_reply w (search_query place n p) = Done sr ->
  contains "error" sr = Ok false ->
  TravelPlanner.summarize_search_results sr = Ok summary ->
  summary <> EmptyString ->
  llm_invoke w (default_llm w) (rendered_prompt place n p summary) = Raise e ->
  TravelPlanner.main w d p tt =
    (console_header ++ console_progress place n p ++
     [search_call w (search_query place n p); Print generating;
      LlmInvoke (default_llm w) (rendered_prompt place n p summary)] ++
     (if caught e then [Print invalid_format] else []),
     tt, if caught e then Done tt else Failed e) /\
  (c !! search_query place n p = None ->
   App.form_submission w true d p c =
     (web_progress place n ++
      [search_call w (search_query place n p);
       LlmInvoke (default_llm w) (rendered_prompt place n p summary)] ++
      (if caught e then [StError invalid_format] else []),
      <[search_query place n p := sr]> c, if caught e then Done tt else Failed e)).
Proof.
  intros Hp Hs Hc Hsum Hne Hllm. split.
  - rewrite main_pipeline. unfold pipeline.
    rewrite Hp, tp_search_reply, Hs, Hc, Hsum.
    destruct summary; [done|]. cbn [is_empty]. rewrite Hllm. outline_caught e.
  - intros Hmiss. rewrite form_pipeline, (parse_input_nonempty _ _ Hp).
    unfold pipeline. rewrite Hp, (app_search_reply _ _ Hmiss), Hs, Hc, Hsum.
    destruct summary; [done|]. cbn [is_empty]. rewrite Hllm. outline_caught e.
Qed.

Lemma not_dict_fails (sr : pyval) :
  is_dict sr = false ->
  (exists e, contains "error" sr = Raise e /\ caught e = false) \/
  (contains "error" sr = Ok true /\ getitem sr "error" = Raise OtherError) \/
  (contains "error" sr = Ok false /\
   TravelPlanner.summarize_search_results sr = Raise OtherError).
Proof.
  destruct sr; try done; intros _; cbn [contains getitem];
    try (left; by eexists).
  - destruct (has_substring "error" s); [right; by left|right; by right].
  - destruct (existsb _ l); [right; by left|right; by right].
Qed.

(** X5. A search value that is not a mapping (a status 200 body that decodes
    to a list, a string, a number, true, false or null) ends the request with
    an exception that the [except] clause does not catch: nothing is shown
    after the search, and no generation call is made. The page has stored
    the value by then. *)
Theorem X5_value_not_a_mapping (d p place : string) (n : Z) (sr : pyval) (c : cache) :
  parse_input d = Ok (place, n) ->
  search_reply w (search_query place n p) = Done sr ->
  is_dict sr = false ->
  TravelPlanner.main w d p tt =
    (console_header ++ console_progress place n p ++
     [search_call w (search_query place n p)], tt, Failed OtherError) /\
  (c !! search_query place n p = None ->
   App.form_submission w true d p c =
     (web_progress place n ++ [search_call w (search_query place n p)],
      <[search_query place n p := sr]> c, Failed OtherError)).
Proof.
  intros Hp Hs Hd.
  assert (forall S fe pre (s1 : S),
    match contains "error" sr with
    | Raise e => handled fe pre s1 e
    | Ok true =>
        match getitem sr "error" with
        | Ok err => (pre ++ [fe_error fe (search_error err)], s1, fe_halt fe)
        | Raise e => handled fe pre s1 e
        end
    | Ok false =>
        match TravelPlanner.summarize_search_results sr with
        | Raise e => handled fe pre s1 e
        | Ok summary =>
            if is_empty summary then
              (pre ++ [fe_warning fe try_different_query], s1, fe_halt fe)
            else
              let prompt := rendered_prompt place n p summary in
              let pre2 := pre ++ fe_generating fe ++ [LlmInvoke (default_llm w) prompt] in
              match llm_invoke w (default_llm w) prompt with
              | Ok itinerary => (pre2 ++ fe_present fe place n itinerary, s1, Done tt)
              | Raise e => handled fe pre2 s1 e
              end
        end
    end = (pre, s1, Failed OtherError)) as Hrest.
  { intros S fe pre s1.
    destruct (not_dict_fails sr Hd) as [(e & -> & He) | [[-> ->] | [-> ->]]];
      unfold handled; [|done..].
    rewrite He. by destruct e. }
  split.
  - rewrite main_pipeline. unfold pipeline. rewrite Hp, tp_search_reply, Hs, Hrest.
    outline.
  - intros Hmiss. rewrite form_pipeline, (parse_input_nonempty _ _ Hp).
    unfold pipeline. rewrite Hp, (app_search_reply _ _ Hmiss), Hs, Hrest. outline.
Qed.

End PipelineFacts.

Lemma X2_successful_request_witness :
  let w := answering (response_ok (PDict sample_results)) in
  exists summary,
    TravelPlanner.main w "Ooty, 4 days" "solo travel" tt =
      (console_header ++ console_progress "Ooty" 4 "solo travel" ++
       [search_call w (search_query "Ooty" 4 "solo travel"); Print generating;
        LlmInvoke (default_llm w) (rendered_prompt "Ooty" 4 "solo travel" summary)] ++
       console_presentation "Ooty" 4 "Day 1: the lake.", tt, Done tt).
Proof.
  cbv zeta. eexists.
  refine (proj1 (X2_successful_request (answering (response_ok (PDict sample_results)))
    "Ooty, 4 days" "solo travel" "Ooty" 4 (PDict sample_results) _ "Day 1: the lake." ∅
    eq_refl eq_refl eq_refl eq_refl _ eq_refl)).
  discriminate.
Defined.

Lemma X3_search_exception_witness :
  let w := answering (response_failed 200 "<html>Bad gateway</html>") in
  TravelPlanner.main w "Ooty, 4 days" "solo travel" tt =
    (console_header ++ console_progress "Ooty" 4 "solo travel" ++
     [search_call w (search_query "Ooty" 4 "solo travel")] ++ [Print invalid_format],
     tt, Done tt).
Proof.
  cbv zeta.
  refine (proj1 (X3_search_exception (answering (response_failed 200 "<html>Bad gateway</html>"))
    "Ooty, 4 days" "solo travel" "Ooty" 4 ValueError ∅ eq_refl _)).
  right. eexists. repeat split.
Defined.

Lemma X4_generation_exception_witness :
  let w := answering_without_model (response_ok (PDict sample_results)) OtherError in
  exists summary,
    TravelPlanner.main w "Ooty, 4 days" "solo travel" tt =
      (console_header ++ console_progress "Ooty" 4 "solo travel" ++
       [search_call w (search_query "Ooty" 4 "solo travel"); Print generating;
        LlmInvoke (default_llm w) (rendered_prompt "Ooty" 4 "solo travel" summary)] ++ [],
       tt, Failed OtherError).
Proof.
  cbv zeta. eexists.
  refine (proj1 (X4_generation_exception
    (answering_without_model (response_ok (PDict sample_results)) OtherError)
    "Ooty, 4 days" "solo travel" "Ooty" 4 (PDict sample_results) _ OtherError ∅
    eq_refl eq_refl eq_refl eq_refl _ eq_refl)).
  discriminate.
Defined.

Lemma X5_value_not_a_mapping_witness :
  let w := answering (response_ok (PList [])) in
  TravelPlanner.main w "Ooty, 4 days" "solo travel" tt =
    (console_header ++ console_progress "Ooty" 4 "solo travel" ++
     [search_call w (search_query "Ooty" 4 "solo travel")], tt, Failed OtherError).
Proof.
  cbv zeta.
  refine (proj1 (X5_value_not_a_mapping (answering (response_ok (PList [])))
    "Ooty, 4 days" "solo travel" "Ooty" 4 (PList []) ∅ eq_refl eq_refl eq_refl)).
Defined.

Section Footprint.
Context (w : world).

Lemma network_app t1 t2 : network (t1 ++ t2) = network t1 ++ network t2.
Proof. apply List.filter_app. Qed.

Lemma network_handled {S} fe pre (s : S) e :
  (forall msg, network [fe_error fe msg] = []) ->
  network (handled fe pre s e).1.1 = network pre.
Proof.
  intros Hfe. unfold handled. destruct (caught e); [|done].
  cbn [fst]. by rewrite network_app, Hfe, app_nil_r.
Qed.

Lemma console_quiet : quiet console.
Proof. by repeat split. Qed.

Lemma page_quiet : quiet page.
Proof. by repeat split. Qed.

Lemma pipeline_network {S} fe (search : string -> M S pyval) d p (s : S) :
  quiet fe ->
  (forall q, exists s1, search q s = ([search_call w q], s1, search_reply w q)) ->
  network (pipeline fe w search d p s).1.1 = expected_calls w d p.
Proof.
  intros (Hh & Hp & Hg & He & Hw & Hpr) Hsearch.
  unfold pipeline, expected_calls.
  destruct (parse_input d) as [[place n]|e].
  2:{ cbn [fst]. by rewrite network_app, Hh, He. }
  destruct (Hsearch (search_query place n p)) as [s1 ->].
  assert (Hpre : network (fe_header fe ++ fe_progress fe place n p ++
                          [search_call w (search_query place n p)]) =
                 [search_call w (search_query place n p)])
    by (by rewrite !network_app, Hh, Hp).
  destruct (search_reply w (search_query place n p)) as [sr|e|];
    [|by rewrite network_handled|done].
  destruct (contains "error" sr) as [[|]|e]; [| |by rewrite network_handled].
  { destruct (getitem sr "error") as [err|e]; [|by rewrite network_handled].
    cbn [fst]. by rewrite network_app, Hpre, He. }
  destruct (TravelPlanner.summarize_search_results sr) as [summary|e];
    [|by rewrite network_handled].
  destruct (is_empty summary).
  { cbn [fst]. by rewrite network_app, Hpre, Hw. }
  cbv zeta.
  assert (network ((fe_header fe ++ fe_progress fe place n p ++
                    [search_call w (search_query place n p)]) ++
                   fe_generating fe ++
                   [LlmInvoke (default_llm w) (rendered_prompt place n p summary)]) =
          [search_call w (search_query place n p);
           LlmInvoke (default_llm w) (rendered_prompt place n p summary)]) as Hpre2
    by (by rewrite network_app, Hpre, network_app, Hg).
  destruct (llm_invoke w (default_llm w) _) as [itinerary|e];
    [|by rewrite network_handled].
  cbn [fst]. by rewrite network_app, Hpre2, Hpr, app_nil_r.
Qed.

(** X6. The network calls of a request are the search for the parsed input
    and then, when the search gave a value without "error" in it and the
    summary is not empty, one generation call with the rendered prompt: no
    call for input that does not parse, never a second search, never a
    generation call without a search. On an empty store the page makes the
    calls the console makes. *)
Theorem X6_network_calls (d p : string) :
  network (TravelPlanner.main w d p tt).1.1 = expected_calls w d p /\
  network (App.form_submission w true d p ∅).1.1 = expected_calls w d p.
Proof.
  split.
  - rewrite main_pipeline. apply pipeline_network; [apply console_quiet|].
    intros q. exists tt. apply tp_search_reply.
  - rewrite form_pipeline. destruct d as [|a d']; [done|]. cbn [is_empty].
    apply pipeline_network; [apply page_quiet|].
    intros q. eexists. by apply app_search_reply.
Qed.

Lemma handled_outcome {S} fe pre (s : S) e :
  (handled fe pre s e).2 = Done tt \/ (handled fe pre s e).2 = Failed OtherError.
Proof. unfold handled. destruct e; cbn; auto. Qed.

Lemma pipeline_outcome {S} fe (search : string -> M S pyval) d p (s : S) :
  (forall q, (search q s).2 <> Stopped) ->
  let o := (pipeline fe w search d p s).2 in
  o = Done tt \/ o = fe_halt fe \/ o = Failed OtherError.
Proof.
  intros Hsearch. cbv zeta. unfold pipeline.
  destruct (parse_input d) as [[place n]|e]; [|by left].
  specialize (Hsearch (search_query place n p)).
  destruct (search (search_query place n p) s) as [[ts s1] [sr|e|]];
    [|destruct (handled_outcome fe (fe_header fe ++ fe_progress fe place n p ++ ts) s1 e);
      auto|done].
  repeat match goal with
         | |- context [handled ?fe ?pre ?s ?e] =>
             destruct (handled_outcome fe pre s e) as [-> | ->]
         | |- context [match ?x with _ => _ end] => destruct x
         end; cbn; auto.
Qed.

Lemma app_search_not_stopped q (c : cache) : (App.serper_search w q c).2 <> Stopped.
Proof.
  rewrite app_search_body_eq, tp_search_reply.
  destruct (c !! q); [done|]. unfold stored.
  pose proof (search_reply_not_stopped w q). by destruct (search_reply w q).
Qed.

(** X7. Neither front end lets an IndexError or a ValueError out. A run of the
    console ends by returning or with an exception of another kind; a run of
    the page ends by reaching the end of the script, by [st.stop()], or with
    an exception of another kind. *)
Theorem X7_outcomes (d p : string) (b : bool) (c : cache) :
  ((TravelPlanner.main w d p tt).2 = Done tt \/
   (TravelPlanner.main w d p tt).2 = Failed OtherError) /\
  ((App.form_submission w b d p c).2 = Done tt \/
   (App.form_submission w b d p c).2 = Stopped \/
   (App.form_submission w b d p c).2 = Failed OtherError).
Proof.
  split.
  - rewrite main_pipeline.
    destruct (pipeline_outcome console (TravelPlanner.serper_search w) d p tt) as [H|[H|H]];
      auto.
    intros q. rewrite tp_search_reply. apply search_reply_not_stopped.
  - destruct b; [|by left]. rewrite form_pipeline.
    destruct (is_empty d); [by left|].
    apply (pipeline_outcome page (App.serper_search w) d p c).
    intros q. apply app_search_not_stopped.
Qed.

End Footprint.

(** * The store of cached searches *)

Section Store.
Context (w : world).

(** X8. The search client of the page remembers what it returned: once a call
    has returned a value, a later call for the same query returns that value
    and makes no request, whatever the provider would answer by then. A call
    that raised has stored nothing, and was for a query that is not in the
    store. *)
Theorem X8_search_is_memoised (q : string) (c c' : cache) (t : list event)
    (o : outcome pyval) :
  App.serper_search w q c = (t, c', o) ->
  (forall v, o = Done v ->
     c' !! q = Some v /\
     forall w', App.serper_search w' q c' = ([], c', Done v)) /\
  (forall e, o = Failed e -> c' = c /\ c !! q = None).
Proof.
  rewrite app_search_body_eq, tp_search_reply.
  destruct (c !! q) as [v0|] eqn:Hq.
  - intros [= <- <- <-]. split; [|done].
    intros v [= <-]. split; [done|].
    intros w'. by rewrite app_search_body_eq, Hq.
  - unfold stored. destruct (search_reply w q) as [v0|e0|]; intros [= <- <- <-].
    + split; [|done]. intros v [= <-].
      assert (<[q:=v0]> c !! q = Some v0) as Hin by apply lookup_insert_eq.
      split; [done|]. intros w'. by rewrite app_search_body_eq, Hin.
    + split; [done|]. by intros e [= <-].
    + done.
Qed.

(** X9. On the page a failed search sticks: after a request whose search got a
    status other than 200, the same request shows the same search error
    again and makes no call at all, also when the provider would answer
    with status 200 by then. *)
Theorem X9_failed_search_sticks (d p place : string) (n : Z) (resp : Response)
    (c : cache) :
  parse_input d = Ok (place, n) ->
  search_response w (search_query place n p) = Ok resp ->
  status_code resp <> 200 ->
  c !! search_query place n p = None ->
  let c' := (App.form_submission w true d p c).1.2 in
  forall w',
    App.form_submission w' true d p c' =
      (web_progress place n ++ [StError ("Error during search: " +:+ text resp)],
       c', Stopped).
Proof.
  intros Hp Hr Hne Hmiss.
  assert (search_reply w (search_query place n p) = Done (error_record (text resp))) as Hs.
  { unfold search_reply. rewrite Hr.
    by rewrite (proj2 (Z.eqb_neq _ _) Hne). }
  assert (App.form_submission w true d p c =
            (web_progress place n ++
             [search_call w (search_query place n p);
              StError (search_error (PStr (text resp)))],
             <[search_query place n p := error_record (text resp)]> c, Stopped)) as ->.
  { apply (form_error_key w d p c place n [search_call w (search_query place n p)]
             (<[search_query place n p := error_record (text resp)]> c)
             [("error", PStr (text resp))] (PStr (text resp))); [done| |done].
    by rewrite (app_search_reply w _ _ Hmiss), Hs. }
  cbn [fst snd]. intros w'.
  apply (form_error_key w' d p _ place n [] _
           [("error", PStr (text resp))] (PStr (text resp))); [done| |done].
  by rewrite app_search_body_eq, lookup_insert_eq.
Qed.

Lemma pipeline_store {S} fe (search : string -> M S pyval) d p (s : S) :
  (pipeline fe w search d p s).1.2 =
  match parse_input d with
  | Ok (place, n) => (search (search_query place n p) s).1.2
  | Raise _ => s
  end.
Proof.
  unfold pipeline. destruct (parse_input d) as [[place n]|e]; [|done].
  destruct (search (search_query place n p) s) as [[ts s1] o1]. cbn [fst snd].
  unfold handled.
  repeat match goal with
         | |- context [match ?x with _ => _ end] => destruct x
         end; reflexivity.
Qed.

(** X10. A request changes the store of the page in one way only: when its
    search is for a query that is not in the store and returns a value, that
    value is added under the query. Nothing that is in the store is changed
    or removed, and nothing is added for a request that does not parse, whose
    query is in the store, or whose search raises. *)
Theorem X10_store_grows_by_one (d p : string) (b : bool) (c : cache) :
  let c' := (App.form_submission w b d p c).1.2 in
  c' = c \/
  exists place n v,
    parse_input d = Ok (place, n) /\
    c !! search_query place n p = None /\
    search_reply w (search_query place n p) = Done v /\
    c' = <[search_query place n p := v]> c.
Proof.
  cbv zeta. destruct b; [|by left].
  rewrite form_pipeline. destruct (is_empty d); [by left|].
  rewrite pipeline_store.
  destruct (parse_input d) as [[place n]|e] eqn:Hp; [|by left].
  rewrite app_search_body_eq, tp_search_reply.
  destruct (c !! search_query place n p) eqn:Hq; [by left|].
  unfold stored. destruct (search_reply w (search_query place n p)) as [v|e|] eqn:Hs;
    [|by left..].
  right. by exists place, n, v.
Qed.

End Store.

Lemma X8_search_is_memoised_witness :
  let w1 := answering (response_failed 403 "Unauthorized.") in
  let w2 := answering (response_ok (PDict sample_results)) in
  App.serper_search w2 "ooty" {["ooty" := error_record "Unauthorized."]} =
    ([], {["ooty" := error_record "Unauthorized."]}, Done (error_record "Unauthorized.")).
Proof.
  cbv zeta.
  refine (proj2 (proj1 (X8_search_is_memoised
    (answering (response_failed 403 "Unauthorized.")) "ooty" ∅
    {["ooty" := error_record "Unauthorized."]}
    [search_call (answering (response_failed 403 "Unauthorized.")) "ooty"]
    (Done (error_record "Unauthorized.")) _) _ eq_refl)
    (answering (response_ok (PDict sample_results)))).
  by rewrite app_search_body_eq.
Defined.

Lemma X9_failed_search_sticks_witness :
  let w1 := answering (response_failed 403 "Unauthorized.") in
  let w2 := answering (response_ok (PDict sample_results)) in
  App.form_submission w2 true "Ooty, 4 days" "solo travel"
    (App.form_submission w1 true "Ooty, 4 days" "solo travel" ∅).1.2 =
  (web_progress "Ooty" 4 ++ [StError "Error during search: Unauthorized."],
   (App.form_submission w1 true "Ooty, 4 days" "solo travel" ∅).1.2, Stopped).
Proof.
  cbv zeta.
  apply (X9_failed_search_sticks (answering (response_failed 403 "Unauthorized."))
           "Ooty, 4 days" "solo travel" "Ooty" 4 (response_failed 403 "Unauthorized.") ∅);
    [reflexivity | reflexivity | discriminate | reflexivity].
Defined.

(** * The summarizer on other responses *)

Section SummarizerEdges.

(** X11. Only the first five entries are looked at: whatever follows them in
    the "organic" list, entries that are not mappings included, does not
    change the summary. *)
Theorem X11_only_first_five (response : list (string * pyval))
    (first : list (list (string * pyval))) (rest : list pyval) :
  lookup_item "organic" response = Some (PList (map PDict first ++ rest)) ->
  length first = 5%nat ->
  TravelPlanner.summarize_search_results (PDict response) = Ok (join nl (map block first)) /\
  App.summarize_search_results (PDict response) = Ok (join nl (map block first)).
Proof.
  intros Ho Hlen.
  assert (TravelPlanner.summarize_search_results (PDict response) =
          Ok (join nl (map block first))) as H; [|split; exact H].
  unfold TravelPlanner.summarize_search_results, get.
  rewrite Ho. cbn [default from_option id mbind result_bind rbind slice_to iter].
  replace (take 5 (map PDict first ++ rest)) with (map PDict first).
  2:{ rewrite <- Hlen, <- (length_map PDict first). by rewrite take_app_length. }
  rewrite (for_each_entries _ block); [done|].
  intros e. unfold block, field. cbn [mbind result_bind rbind mret result_ret].
  by destruct (lookup_item "title" e), (lookup_item "link" e), (lookup_item "snippet" e).
Qed.

Lemma join_nonempty b bs : b <> EmptyString -> join nl (b :: bs) <> EmptyString.
Proof.
  intros Hb. unfold join. destruct bs as [|b' bs]; [done|].
  cbn [String.concat]. by destruct b.
Qed.

(** X12. For a response whose "organic" list holds mappings, the summary is
    the empty string exactly when the list has no entry: one entry is enough
    for the request to go past the "try a different query" warning. *)
Theorem X12_summary_empty_iff (response : list (string * pyval))
    (entries : list (list (string * pyval))) :
  lookup_item "organic" response = Some (PList (map PDict entries)) ->
  (TravelPlanner.summarize_search_results (PDict response) = Ok EmptyString <->
   entries = []).
Proof.
  intros Ho. rewrite (summarize_entries response entries Ho).
  destruct entries as [|e es]; [done|].
  split; [|done]. intros [= H]. exfalso. revert H.
  cbn [firstn map]. by apply join_nonempty.
Qed.

Lemma for_each_not_dict {B} (f : pyval -> result B) l :
  (forall v, is_dict v = false -> f v = Raise OtherError) ->
  (forall v, is_dict v = true -> exists b, f v = Ok b) ->
  existsb (fun v => negb (is_dict v)) l = true ->
  for_each f l = Raise OtherError.
Proof.
  intros Hbad Hgood. induction l as [|v l IH]; [done|].
  cbn [existsb for_each]. destruct (is_dict v) eqn:Hv; cbn [negb orb].
  - intros H. destruct (Hgood v Hv) as [b ->]. cbn [rbind]. by rewrite (IH H).
  - intros _. by rewrite (Hbad v Hv).
Qed.

(** X13. The summarizer raises, with an exception that the front ends do not
    catch, when the value under "organic" is not a list of mappings: when one
    of the first five entries of the list is not a mapping, when the value is
    a string that is not empty, and when it is a number, true, false, null or
    a mapping. *)
Theorem X13_summarizer_raises (response : list (string * pyval)) (v : pyval) :
  lookup_item "organic" response = Some v ->
  match v with
  | PList l => existsb (fun x => negb (is_dict x)) (take 5 l) = true
  | PStr s => s <> EmptyString
  | _ => True
  end ->
  TravelPlanner.summarize_search_results (PDict response) = Raise OtherError /\
  App.summarize_search_results (PDict response) = Raise OtherError.
Proof.
  intros Ho Hv.
  assert (TravelPlanner.summarize_search_results (PDict response) = Raise OtherError)
    as H; [|split; exact H].
  unfold TravelPlanner.summarize_search_results, get.
  rewrite Ho. cbn [default from_option id mbind result_bind rbind].
  destruct v; try done; cbn [slice_to iter rbind mbind result_bind].
  - destruct s as [|c s]; [done|]. reflexivity.
  - rewrite for_each_not_dict; [done| | |done].
    + by intros [].
    + intros [] Hd; try done. cbn [get mbind result_bind rbind]. by eexists.
Qed.

End SummarizerEdges.

Lemma X11_only_first_five_witness :
  let e : list (string * pyval) := [("title", PStr "A")] in
  TravelPlanner.summarize_search_results
    (PDict [("organic", PList (map PDict [e; e; e; e; e] ++ [PNone; PInt 7]))]) =
  Ok (join nl (map block [e; e; e; e; e])).
Proof.
  cbv zeta.
  refine (proj1 (X11_only_first_five
    [("organic", PList (map PDict (replicate 5 [("title", PStr "A")]) ++ [PNone; PInt 7]))]
    (replicate 5 [("title", PStr "A")]) [PNone; PInt 7] eq_refl eq_refl)).
Defined.

Lemma X12_summary_empty_iff_witness :
  TravelPlanner.summarize_search_results (PDict sample_results) = Ok EmptyString <->
  sample_entries = [].
Proof. apply (X12_summary_empty_iff sample_results sample_entries). reflexivity. Defined.

Lemma X13_summarizer_raises_witness :
  TravelPlanner.summarize_search_results
    (PDict [("organic", PList [PDict [("title", PStr "A")]; PStr "B"])]) = Raise OtherError.
Proof.
  refine (proj1 (X13_summarizer_raises
    [("organic", PList [PDict [("title", PStr "A")]; PStr "B"])]
    (PList [PDict [("title", PStr "A")]; PStr "B"]) eq_refl eq_refl)).
Defined.

Section SummaryLines.

Lemma split_no_sep sep s : contains_char sep s = false -> split sep s = [s].
Proof.
  induction s as [|c s IH]; [done|]. cbn [contains_char split].
  intros [Hc Hs]%orb_false_iff. rewrite Ascii.eqb_sym in Hc. by rewrite Hc, (IH Hs).
Qed.

Lemma split_at_sep sep a b :
  contains_char sep a = false -> split sep (a +:+ String sep b) = a :: split sep b.
Proof.
  induction a as [|c a IH].
  - intros _. change (split sep (String sep b) = [EmptyString] ++ split sep b).
    cbn [split]. by rewrite Ascii.eqb_refl.
  - cbn [contains_char]. intros [Hc Ha]%orb_false_iff.
    rewrite append_cons. cbn [split]. rewrite Ascii.eqb_sym in Hc.
    by rewrite Hc, (IH Ha).
Qed.

Lemma label_one_line label value :
  contains_char newline label = false ->
  negb (contains_char newline value) = true ->
  contains_char newline (label +:+ value) = false.
Proof.
  intros Hl Hv%negb_true_iff. by rewrite contains_char_app, Hl, Hv.
Qed.

Lemma newline_append x : String newline EmptyString +:+ x = String newline x.
Proof. reflexivity. Qed.

(** The lines of a block that is followed by more text. *)
Lemma split_block_then entry rest :
  one_line_fields entry = true ->
  split newline (block entry +:+ String newline rest) =
  block_lines entry ++ split newline rest.
Proof.
  intros [[H1 H2]%andb_true_iff H3]%andb_true_iff.
  unfold block, block_lines.
  change nl with (String newline EmptyString).
  rewrite ?append_assoc.
  rewrite !newline_append.
  rewrite <- (append_assoc "Title: "), split_at_sep by by apply label_one_line.
  rewrite <- (append_assoc "URL: "), split_at_sep by by apply label_one_line.
  rewrite <- (append_assoc "Summary: "), split_at_sep by by apply label_one_line.
  by rewrite (split_at_sep newline "---" rest).
Qed.

Lemma split_block entry :
  one_line_fields entry = true -> split newline (block entry) = block_lines entry.
Proof.
  intros [[H1 H2]%andb_true_iff H3]%andb_true_iff.
  unfold block, block_lines.
  change nl with (String newline EmptyString).
  rewrite ?append_assoc.
  rewrite !newline_append.
  rewrite <- (append_assoc "Title: "), split_at_sep by by apply label_one_line.
  rewrite <- (append_assoc "URL: "), split_at_sep by by apply label_one_line.
  rewrite <- (append_assoc "Summary: "), split_at_sep by by apply label_one_line.
  by rewrite split_no_sep.
Qed.

Lemma split_blocks entries :
  entries <> [] ->
  forallb one_line_fields entries = true ->
  split newline (join nl (map block entries)) = flat_map block_lines entries.
Proof.
  induction entries as [|e es IH]; [done|]. intros _.
  cbn [forallb]. intros [He Hes]%andb_true_iff.
  destruct es as [|e' es].
  - cbn [map flat_map]. unfold join. cbn [String.concat].
    rewrite app_nil_r. by apply split_block.
  - change (join nl (map block (e :: e' :: es)))
      with (block e +:+ String newline (join nl (map block (e' :: es)))).
    rewrite (split_block_then e _ He). cbn [flat_map]. f_equal. by apply IH.
Qed.

(** X14. When the fields of the entries render without a newline, the
    summary of a response with at least one entry splits at its newlines
    into the lines of the blocks, four for each of the first five entries in
    their order: Title, URL, Summary and the delimiter. *)
Theorem X14_summary_lines (response : list (string * pyval))
    (entries : list (list (string * pyval))) :
  lookup_item "organic" response = Some (PList (map PDict entries)) ->
  entries <> [] ->
  forallb one_line_fields (take 5 entries) = true ->
  exists summary,
    TravelPlanner.summarize_search_results (PDict response) = Ok summary /\
    split newline summary = flat_map block_lines (take 5 entries) /\
    length (split newline summary) = (4 * Nat.min 5 (length entries))%nat.
Proof.
  intros Ho Hne Hlines. eexists. split; [by apply summarize_entries|].
  assert (take 5 entries <> []) as Hne' by (by destruct entries).
  rewrite (split_blocks _ Hne' Hlines). split; [done|].
  rewrite <- (length_take entries 5).
  generalize (take 5 entries). intros l. induction l as [|e l IH]; [done|].
  cbn [flat_map]. rewrite length_app, IH. cbn [length block_lines]. lia.
Qed.

End SummaryLines.

Lemma X14_summary_lines_witness :
  exists summary,
    TravelPlanner.summarize_search_results (PDict sample_results) = Ok summary /\
    split newline summary =
      ["Title: Ooty Lake"; "URL: https://example.org/lake"; "Summary: Boating on the lake.";
       "---"; "Title: Tea Museum"; "URL: N/A"; "Summary: N/A"; "---"] /\
    length (split newline summary) = 8%nat.
Proof.
  apply (X14_summary_lines sample_results sample_entries); [reflexivity|discriminate|reflexivity].
Defined.

(** * The parser on other inputs *)

Section ParserEdges.

Lemma first_token_signed sign n c r :
  isspace sign = false -> decimal_token n = true -> isspace c = true ->
  first_token (String " " (String sign (n +:+ String c r))) = Some (String sign n).
Proof.
  intros Hs [Hne Hn]%andb_true_iff Hc. unfold first_token. cbn [lstrip].
  change (isspace " ") with true. cbv iota. rewrite Hs.
  by rewrite (take_token_digits n c r Hn Hc).
Qed.

Lemma int_signed n :
  decimal_token n = true ->
  (String.length n <= int_max_str_digits)%nat ->
  int (String "-" n) = Ok (- decimal_value n) /\ int (String "+" n) = Ok (decimal_value n).
Proof.
  intros Hn Hlen. pose proof Hn as [Hne Hd]%andb_true_iff.
  assert (forall sign, isspace sign = false -> strip (String sign n) = String sign n) as Hstrip.
  { intros sign Hs. apply strip_no_space. cbn [no_space].
    by rewrite Hs, (all_digits_no_space n Hd). }
  assert (parse_digits n = Some (decimal_value n, String.length n)) as Hp.
  { destruct n as [|c r]; [done|].
    pose proof Hd as [Hc Hr]%all_digits_cons.
    unfold parse_digits. rewrite (digit_not_underscore c Hc).
    by rewrite (scan_digits_all_digits _ 0 0 Hd), Nat.add_0_l. }
  unfold int. rewrite !Hstrip by done.
  cbn [Ascii.eqb Bool.eqb]. rewrite Hp.
  by rewrite (proj2 (Nat.ltb_ge _ _) Hlen).
Qed.

(** X15. A sign before the digits is accepted: "X, -N days" parses with the
    day count -N and "X, +N days" with N, so the day count that goes on into
    the search and the prompt can be negative. *)
Theorem X15_signed_day_count (x n : string) :
  contains_char comma x = false ->
  decimal_token n = true ->
  (String.length n <= int_max_str_digits)%nat ->
  parse_input (x +:+ ", -" +:+ n +:+ " days") = Ok (strip x, - decimal_value n) /\
  parse_input (x +:+ ", +" +:+ n +:+ " days") = Ok (strip x, decimal_value n) /\
  - decimal_value n <= 0.
Proof.
  intros Hx Hn Hlen. pose proof Hn as [_ Hd]%andb_true_iff.
  destruct (int_signed n Hn Hlen) as [Hminus Hplus].
  assert (forall sign, isspace sign = false -> Ascii.eqb comma sign = false ->
            forall v, int (String sign n) = Ok v ->
            parse_input (x +:+ String comma (String " " (String sign (n +:+ String " " "days"))))
            = Ok (strip x, v)) as H.
  { intros sign Hs Hc v Hv.
    rewrite parse_input_unfold, (after_first_comma_app _ _ Hx), (up_to_comma_app _ _ Hx).
    rewrite up_to_comma_no_comma.
    - by rewrite (first_token_signed sign n " " "days" Hs Hn eq_refl), Hv.
    - change (String " " (String sign (n +:+ String " " "days")))
        with (" " +:+ String sign EmptyString +:+ n +:+ " days").
      rewrite !contains_char_app, (all_digits_no_comma n Hd).
      cbn [contains_char]. by rewrite Hc. }
  split; [by apply (H "-"%char)|]. split; [by apply (H "+"%char)|].
  pose proof (decimal_value_nonneg n). lia.
Qed.

(** X16. Nothing after a second comma is read: cutting the input at its
    second comma does not change what the parser returns or raises. *)
Theorem X16_second_comma_cuts (x f rest : string) :
  contains_char comma x = false ->
  contains_char comma f = false ->
  parse_input (x +:+ String comma (f +:+ String comma rest)) =
  parse_input (x +:+ String comma f).
Proof.
  intros Hx Hf.
  rewrite !parse_input_unfold, !(after_first_comma_app _ _ Hx), !(up_to_comma_app _ _ Hx).
  by rewrite (up_to_comma_app _ _ Hf), (up_to_comma_no_comma _ Hf).
Qed.

Lemma lstrip_split s :
  exists l, s = l +:+ lstrip s /\ all_space l = true /\ starts_with_space (lstrip s) = false.
Proof.
  induction s as [|c s (l & Hl & Hsp & Hst)]; [by exists EmptyString|].
  cbn [lstrip]. destruct (isspace c) eqn:Hc.
  - exists (String c l). rewrite append_cons, <- Hl. cbn [all_space]. by rewrite Hc, Hsp.
  - exists EmptyString. by cbn [starts_with_space].
Qed.

Lemma rstrip_split s :
  exists r, s = rstrip s +:+ r /\ all_space r = true /\ ends_with_space (rstrip s) = false /\
            (starts_with_space s = false -> starts_with_space (rstrip s) = false).
Proof.
  induction s as [|c s (r & Hr & Hsp & Hend & Hst)]; [by exists EmptyString|].
  cbn [rstrip]. destruct (isspace c) eqn:Hc; cbn [andb].
  - destruct (rstrip s) as [|c' s'] eqn:Hrs; cbn [is_empty].
    + change (EmptyString +:+ r) with r in Hr. subst r.
      exists (String c s). cbn [all_space]. by rewrite Hc, Hsp.
    + exists r. rewrite append_cons, <- Hr.
      repeat split; try done; cbn [starts_with_space]; by rewrite Hc.
  - exists r. rewrite append_cons, <- Hr.
    repeat split; try done; cbn [ends_with_space]; by destruct (rstrip s).
Qed.

Lemma up_to_comma_comma_free s : contains_char comma (up_to_comma s) = false.
Proof.
  induction s as [|c s IH]; [done|]. cbn [up_to_comma].
  destruct (Ascii.eqb c comma) eqn:Hc; [done|]. cbn [contains_char].
  by rewrite Ascii.eqb_sym, Hc, IH.
Qed.

(** X17. The place the parser returns is the text before the first comma
    with the whitespace at its two ends removed, and nothing else changed: it
    does not start or end with whitespace and has no comma in it. *)
Theorem X17_place_is_trimmed (d place : string) (n : Z) :
  parse_input d = Ok (place, n) ->
  starts_with_space place = false /\
  ends_with_space place = false /\
  contains_char comma place = false /\
  exists l r,
    all_space l = true /\ all_space r = true /\ up_to_comma d = l +:+ place +:+ r.
Proof.
  intros Hp. rewrite (parse_input_place _ _ _ Hp). unfold strip.
  destruct (lstrip_split (up_to_comma d)) as (l & Hl & Hlsp & Hlst).
  destruct (rstrip_split (lstrip (up_to_comma d))) as (r & Hr & Hrsp & Hrend & Hrst).
  assert (up_to_comma d = l +:+ rstrip (lstrip (up_to_comma d)) +:+ r) as Heq
    by (by rewrite <- Hr).
  repeat split; [by apply Hrst | done | | by exists l, r].
  pose proof (up_to_comma_comma_free d) as Hc. rewrite Heq in Hc.
  rewrite !contains_char_app in Hc.
  by apply orb_false_iff in Hc as [_ [Hc _]%orb_false_iff].
Qed.

Lemma all_space_strip s : all_space s = true -> strip s = EmptyString.
Proof.
  unfold strip. induction s as [|c s IH]; [done|]. cbn [all_space lstrip].
  intros [Hc Hs]%andb_true_iff. rewrite Hc. by apply IH.
Qed.

Lemma all_space_no_comma s : all_space s = true -> contains_char comma s = false.
Proof.
  induction s as [|c s IH]; [done|]. cbn [all_space contains_char].
  intros [Hc Hs]%andb_true_iff. rewrite (IH Hs), orb_false_r.
  destruct (Ascii.eqb_spec comma c) as [<-|]; [done|done].
Qed.

(** X18. The place is not checked: an input whose text before the comma is
    empty or all whitespace parses with the empty place. *)
Theorem X18_blank_place (x n : string) :
  all_space x = true ->
  decimal_token n = true ->
  (String.length n <= int_max_str_digits)%nat ->
  parse_input (x +:+ ", " +:+ n +:+ " days") = Ok (EmptyString, decimal_value n).
Proof.
  intros Hx Hn Hlen.
  rewrite (parse_place_and_days x n (all_space_no_comma x Hx) Hn Hlen).
  by rewrite (all_space_strip x Hx).
Qed.

End ParserEdges.

Lemma X15_signed_day_count_witness :
  parse_input ("Ooty" +:+ ", -" +:+ "3" +:+ " days") = Ok ("Ooty", -3).
Proof.
  refine (proj1 (X15_signed_day_count "Ooty" "3" eq_refl eq_refl _)).
  vm_compute; lia.
Defined.

Lemma X16_second_comma_cuts_witness :
  parse_input "Ooty, 4 days, solo, budget" = parse_input "Ooty, 4 days".
Proof.
  apply (X16_second_comma_cuts "Ooty" " 4 days" " solo, budget"); reflexivity.
Defined.

Lemma X17_place_is_trimmed_witness :
  contains_char comma "New Delhi" = false /\ ends_with_space "New Delhi" = false.
Proof.
  pose proof (X17_place_is_trimmed "  New Delhi , 2 days" "New Delhi" 2 eq_refl)
    as (_ & He & Hc & _).
  by split.
Defined.

Lemma X18_blank_place_witness :
  parse_input ("  " +:+ ", " +:+ "3" +:+ " days") = Ok (EmptyString, 3).
Proof.
  apply (X18_blank_place "  " "3"); [reflexivity | reflexivity | vm_compute; lia].
Defined.

(** * Start-up *)

Lemma expected_calls_shape w d p e :
  In e (expected_calls w d p) ->
  (exists q, e = search_call w q) \/ (exists prompt, e = LlmInvoke (default_llm w) prompt).
Proof.
  unfold expected_calls.
  destruct (parse_input d) as [[place n]|]; [|done].
  intros [<-|H]; [left; by eexists|].
  destruct (search_reply w (search_query place n p)) as [sr| |]; [|done..].
  destruct (contains "error" sr) as [[|]|]; [done| |done].
  destruct (TravelPlanner.summarize_search_results sr) as [summary|]; [|done].
  destruct (is_empty summary); [done|].
  destruct H as [<-|[]]. right. by eexists.
Qed.

Lemma main_calls_shape w d p e :
  In e (TravelPlanner.main w d p tt).1.1 ->
  is_search_call e || is_llm_call e = true ->
  (exists q, e = search_call w q) \/ (exists prompt, e = LlmInvoke (default_llm w) prompt).
Proof.
  intros Hin Hnet. apply (expected_calls_shape w d p).
  rewrite <- (pipeline_network w console (TravelPlanner.serper_search w) d p tt).
  - rewrite <- main_pipeline. unfold network. apply List.filter_In. by split.
  - apply console_quiet.
  - intros q. exists tt. apply tp_search_reply.
Qed.

(** X19. Run as a script, the console program checks the two keys before
    anything else. With a key missing or empty it raises ValueError at once:
    nothing is printed, asked or sent. Otherwise every search request of the
    run goes to the fixed address with the SERPER key of the environment in
    its X-API-KEY header, and every generation call is made with the GROQ key
    of the environment and the model llama-3.3-70b-versatile; neither key is
    empty. *)
Theorem X19_keys_checked_first (h : host) (d p : string) :
  let run := travel_planner_script h d p tt in
  (falsy (getenv h "GROQ_API_KEY") || falsy (getenv h "SERPER_API_KEY") = true ->
   run = ([], tt, Failed ValueError)) /\
  (forall url headers body,
     In (HttpPost url headers body) run.1.1 ->
     exists key,
       getenv h "SERPER_API_KEY" = Some key /\ key <> EmptyString /\
       url = search_url /\
       headers = [("X-API-KEY", key); ("Content-Type", "application/json")]) /\
  (forall llm prompt,
     In (LlmInvoke llm prompt) run.1.1 ->
     exists key,
       getenv h "GROQ_API_KEY" = Some key /\ key <> EmptyString /\
       llm = {| api_key := key; model := "llama-3.3-70b-versatile" |}).
Proof.
  cbv zeta. unfold travel_planner_script.
  destruct (getenv h "GROQ_API_KEY") as [[|g0 g]|],
           (getenv h "SERPER_API_KEY") as [[|s0 s]|];
    cbn [falsy is_empty orb default from_option id];
    try (split; [done|]; split; intros; done).
  split; [done|]. split.
  - intros url headers body Hin.
    destruct (main_calls_shape _ _ _ _ Hin eq_refl) as [[q [= -> -> _]]|[prompt [=]]].
    by exists (String s0 s).
  - intros llm prompt Hin.
    destruct (main_calls_shape _ _ _ _ Hin eq_refl) as [[q [=]]|[prompt' [= -> _]]].
    by exists (String g0 g).
Qed.

Lemma X19_keys_checked_first_witness :
  travel_planner_script (host_with (Some "groq-key") None (response_ok (PDict sample_results)))
    "Ooty, 4 days" "solo travel" tt = ([], tt, Failed ValueError).
Proof.
  refine (proj1 (X19_keys_checked_first
    (host_with (Some "groq-key") None (response_ok (PDict sample_results)))
    "Ooty, 4 days" "solo travel") eq_refl).
Defined.
